(** * terraform-provider-ocm: default-ingress reconciliation and value conversions

    A shallow embedding of
    - [provider/common/tfconversions.go] (module [common]),
    - [provider/defaultingress/ingress.go] (module [defaultingress]),
    - [provider/ingress.go], the same reconciler on the cluster state
      (module [provider]),
    - the [Update] operation of
      [provider/groupmembership/group_membership_resource.go]
      (module [groupmembership]),
    together with the parts of the Terraform plugin framework
    (modules [diag] and [basetypes]) and of the OCM SDK (module [cmv1]) that
    this code calls. The helpers of [provider/common] that the ingress code
    calls but whose source file is missing are a type class; module
    [helpers] gives an implementation of them.

    Go values are modelled as follows.
    - A Go [map[string]string] is an [option (gmap string string)]: [None] is
      the nil map, [Some ∅] the empty non-nil map.  A Go [[]string] is an
      [option (list string)] in the same way.
    - A Go [error] is its message; [None] is the nil error.
    - A pointer to a struct is an [option] of the record.
    - A function that can dereference nil or index out of range returns an
      [outcome], whose [Panic] constructor stands for the Go run-time panic.
    - A function that talks to the remote API returns the trace of the
      requests it sent next to its outcome. *)

From Stdlib Require Import Ascii String.
From stdpp Require Import base option list strings gmap fin_maps.

Open Scope string_scope.
Open Scope list_scope.

(** ** Outcomes: normal return or run-time panic *)

Inductive outcome (A : Type) : Type :=
| Done (a : A)
| Panic.
Arguments Done {A} a.
Arguments Panic {A}.

#[global] Instance outcome_ret : MRet outcome := fun A a => Done a.
#[global] Instance outcome_bind : MBind outcome := fun A B f m =>
  match m with
  | Done a => f a
  | Panic => Panic
  end.

(** A Go [error] value, by its message. *)
Definition error := string.

(** [fmt.Errorf(format, arg)] for the formats of this code base, which all
    end in one [%v] or [%s] verb: the prefix followed by the argument. *)
Definition Errorf (prefix : string) (arg : string) : error := prefix +:+ arg.

(** ** Diagnostics of the plugin framework *)

Module diag.

Inductive Severity := SeverityError | SeverityWarning.

#[global] Instance Severity_eq_dec : EqDecision Severity.
Proof. solve_decision. Defined.

Record Diagnostic := NewDiagnostic {
  Severity_ : Severity;
  Summary : string;
  Detail : string;
}.

#[global] Instance Diagnostic_eq_dec : EqDecision Diagnostic.
Proof. solve_decision. Defined.

Definition NewErrorDiagnostic (summary detail : string) : Diagnostic :=
  NewDiagnostic SeverityError summary detail.

(** [diag.Diagnostics] is a slice of diagnostics; the nil slice is [[]]. *)
Definition Diagnostics := list Diagnostic.

Definition isError (d : Diagnostic) : bool :=
  bool_decide (Severity_ d = SeverityError).

(** [diags.HasError()] *)
Definition HasError (diags : Diagnostics) : bool := existsb isError diags.

(** [diags.Errors()] *)
Definition Errors (diags : Diagnostics) : Diagnostics :=
  List.filter isError diags.

(** [diags.Append(d)]: a diagnostic that is already there is not repeated. *)
Definition Append (diags : Diagnostics) (d : Diagnostic) : Diagnostics :=
  if bool_decide (d ∈ diags) then diags else diags ++ [d].

(** [diags.AddError(summary, detail)] *)
Definition AddError (diags : Diagnostics) (summary detail : string) : Diagnostics :=
  Append diags (NewErrorDiagnostic summary detail).

(** [diags.Append(in...)] *)
Definition AppendAll (diags : Diagnostics) (new : Diagnostics) : Diagnostics :=
  foldl Append diags new.

End diag.

(** ** Attribute values of the plugin framework ([types] / [basetypes]) *)

Module basetypes.

Inductive valueState := valueStateNull | valueStateUnknown | valueStateKnown.

#[global] Instance valueState_eq_dec : EqDecision valueState.
Proof. solve_decision. Defined.

(** [attr.Type], restricted to the primitive types. *)
Inductive Type_ := StringType | Int64Type | BoolType.

#[global] Instance Type_eq_dec : EqDecision Type_.
Proof. solve_decision. Defined.

Definition Type_String (t : Type_) : string :=
  match t with
  | StringType => "basetypes.StringType"
  | Int64Type => "basetypes.Int64Type"
  | BoolType => "basetypes.BoolType"
  end.

(** [types.String]: the zero value of the struct is the null string. *)
Record StringValue := mkStringValue {
  s_state : valueState;
  s_value : string;
}.

#[global] Instance StringValue_eq_dec : EqDecision StringValue.
Proof. solve_decision. Defined.

Definition NewStringNull : StringValue := mkStringValue valueStateNull "".
Definition NewStringUnknown : StringValue := mkStringValue valueStateUnknown "".
Definition NewStringValue (v : string) : StringValue := mkStringValue valueStateKnown v.

Definition String_IsNull (s : StringValue) : bool :=
  bool_decide (s_state s = valueStateNull).
Definition String_IsUnknown (s : StringValue) : bool :=
  bool_decide (s_state s = valueStateUnknown).
(** [s.ValueString()]: the empty string for a null or unknown value. *)
Definition ValueString (s : StringValue) : string := s_value s.

(** [attr.Value], restricted to the primitive values. *)
Inductive Value :=
| VString (v : StringValue)
| VInt64 (st : valueState) (v : Z)
| VBool (st : valueState) (v : bool).

#[global] Instance Value_eq_dec : EqDecision Value.
Proof. solve_decision. Defined.

Definition Value_Type (v : Value) : Type_ :=
  match v with
  | VString _ => StringType
  | VInt64 _ _ => Int64Type
  | VBool _ _ => BoolType
  end.

(** [types.Map]: [m_elements] is a Go map (nil or not), [m_elementType] an
    interface value (nil in the zero value of the struct). *)
Record MapValue := mkMapValue {
  m_elements : option (gmap string Value);
  m_elementType : option Type_;
  m_state : valueState;
}.

#[global] Instance MapValue_eq_dec : EqDecision MapValue.
Proof. solve_decision. Defined.

(** [types.List] *)
Record ListValue := mkListValue {
  l_elements : option (list Value);
  l_elementType : option Type_;
  l_state : valueState;
}.

#[global] Instance ListValue_eq_dec : EqDecision ListValue.
Proof. solve_decision. Defined.

Definition NewMapNull (t : Type_) : MapValue := mkMapValue None (Some t) valueStateNull.
Definition NewMapUnknown (t : Type_) : MapValue := mkMapValue None (Some t) valueStateUnknown.
Definition NewListNull (t : Type_) : ListValue := mkListValue None (Some t) valueStateNull.
Definition NewListUnknown (t : Type_) : ListValue := mkListValue None (Some t) valueStateUnknown.

Definition Map_IsNull (m : MapValue) : bool := bool_decide (m_state m = valueStateNull).
Definition Map_IsUnknown (m : MapValue) : bool := bool_decide (m_state m = valueStateUnknown).
Definition List_IsNull (l : ListValue) : bool := bool_decide (l_state l = valueStateNull).
Definition List_IsUnknown (l : ListValue) : bool := bool_decide (l_state l = valueStateUnknown).

(** [m.Elements()] and [l.Elements()]: a copy of the elements. *)
Definition Map_Elements (m : MapValue) : gmap string Value := default ∅ (m_elements m).
Definition List_Elements (l : ListValue) : list Value := default [] (l_elements l).

(** The diagnostic of an element whose type is not the declared one (the
    text of the detail is abridged). *)
Definition invalidElement (kind place : string) (t : Type_) (v : Value) : diag.Diagnostic :=
  diag.NewErrorDiagnostic ("Invalid " +:+ kind +:+ " Element Type")
    (kind +:+ " Element Type: " +:+ Type_String t +:+ ", " +:+ kind +:+ " " +:+ place
       +:+ " Element Type: " +:+ Type_String (Value_Type v)).

(** [types.MapValue(elementType, elements)]: every element must have the
    declared type; otherwise an unknown map and the diagnostics. Go ranges
    over the map in no fixed order; here the keys are visited in the order of
    [map_to_list]. *)
Definition NewMapValue (elementType : Type_) (elements : gmap string Value)
  : MapValue * diag.Diagnostics :=
  let diags :=
    foldl (fun diags kv =>
             if bool_decide (elementType = Value_Type kv.2) then diags
             else diag.Append diags (invalidElement "Map" ("Key (" +:+ kv.1 +:+ ")") elementType kv.2))
          [] (map_to_list elements) in
  if diag.HasError diags then (NewMapUnknown elementType, diags)
  else (mkMapValue (Some elements) (Some elementType) valueStateKnown, []).

(** [types.ListValue(elementType, elements)] *)
Definition NewListValue (elementType : Type_) (elements : list Value)
  : ListValue * diag.Diagnostics :=
  let diags :=
    foldl (fun diags v =>
             if bool_decide (elementType = Value_Type v) then diags
             else diag.Append diags (invalidElement "List" "Index" elementType v))
          [] elements in
  if diag.HasError diags then (NewListUnknown elementType, diags)
  else (mkListValue (Some elements) (Some elementType) valueStateKnown, []).

(** Reflection of one element into a Go [string] with the unhandled-null and
    unhandled-unknown options off: only a known string converts (the texts of
    the details are abridged). *)
Definition intoString (v : Value) : string + diag.Diagnostic :=
  match v with
  | VString s =>
      match s_state s with
      | valueStateKnown => inl (s_value s)
      | valueStateNull =>
          inr (diag.NewErrorDiagnostic "Value Conversion Error" "unhandled null value")
      | valueStateUnknown =>
          inr (diag.NewErrorDiagnostic "Value Conversion Error" "unhandled unknown value")
      end
  | _ =>
      inr (diag.NewErrorDiagnostic "Value Conversion Error"
             ("cannot reflect " +:+ Type_String (Value_Type v) +:+ " into a string"))
  end.

Definition asString (v : Value) : option string :=
  match intoString v with inl s => Some s | inr _ => None end.

Definition asDiagnostic (v : Value) : option diag.Diagnostic :=
  match intoString v with inl _ => None | inr d => Some d end.

(** [l.ElementsAs(ctx, &target, false)] for a [[]string] target: the new
    value of the target when every element converts, or the diagnostic of the
    first element that does not (the target is then left as it was). *)
Fixpoint reflectList (vs : list Value) : list string + diag.Diagnostic :=
  match vs with
  | [] => inl []
  | v :: vs' =>
      match intoString v with
      | inr d => inr d
      | inl s =>
          match reflectList vs' with
          | inr d => inr d
          | inl ss => inl (s :: ss)
          end
      end
  end.

Definition List_ElementsAs (l : ListValue) (target : option (list string))
  : option (list string) * diag.Diagnostics :=
  match l_state l with
  | valueStateKnown =>
      match reflectList (List_Elements l) with
      | inl ss => (Some ss, [])
      | inr d => (target, [d])
      end
  | valueStateNull =>
      (target, [diag.NewErrorDiagnostic "Value Conversion Error" "unhandled null value"])
  | valueStateUnknown =>
      (target, [diag.NewErrorDiagnostic "Value Conversion Error" "unhandled unknown value"])
  end.

(** [m.ElementsAs(ctx, &target, false)] for a [map[string]string] target.
    Reflection stops at the first element that does not convert; the order of
    the keys is that of [map_to_list]. *)
Definition Map_ElementsAs (m : MapValue) (target : option (gmap string string))
  : option (gmap string string) * diag.Diagnostics :=
  match m_state m with
  | valueStateKnown =>
      match omap (fun kv => asDiagnostic kv.2) (map_to_list (Map_Elements m)) with
      | [] => (Some (omap asString (Map_Elements m)), [])
      | d :: _ => (target, [d])
      end
  | valueStateNull =>
      (target, [diag.NewErrorDiagnostic "Value Conversion Error" "unhandled null value"])
  | valueStateUnknown =>
      (target, [diag.NewErrorDiagnostic "Value Conversion Error" "unhandled unknown value"])
  end.

(** [s.String()], the human-readable form of a string value: the value
    quoted as by the verb [%q] when it is known. [quote] is that quoting
    ([strconv.Quote]). *)
Definition String_String (quote : string → string) (s : StringValue) : string :=
  if String_IsUnknown s then "<unknown>"
  else if String_IsNull s then "<null>"
  else quote (s_value s).

(** [types.Bool] *)
Record BoolValue := mkBoolValue {
  b_state : valueState;
  b_value : bool;
}.

Definition Bool_IsNull (b : BoolValue) : bool := bool_decide (b_state b = valueStateNull).
Definition Bool_IsUnknown (b : BoolValue) : bool :=
  bool_decide (b_state b = valueStateUnknown).
(** [b.ValueBool()] *)
Definition ValueBool (b : BoolValue) : bool := b_value b.

End basetypes.

(** ** [reflect.DeepEqual]

    On the values modelled here (structs, strings, maps and slices with the
    nil case kept apart, interface values by constructor) deep equality is
    structural equality. *)
Definition DeepEqual {A : Type} `{EqDecision A} (x y : A) : bool :=
  bool_decide (x = y).
Arguments DeepEqual : simpl never.

(** Indexing a slice at 0 and dereferencing a pointer. *)
Definition index0 {A : Type} (l : list A) : outcome A :=
  match l with
  | x :: _ => Done x
  | [] => Panic
  end.

Definition deref {A : Type} (p : option A) : outcome A :=
  match p with
  | Some a => Done a
  | None => Panic
  end.

(** ** [provider/common] *)

Module common.
Import basetypes.

(** The functions of [provider/common] that the ingress code calls and whose
    source file is missing. The ingress code is embedded over any
    implementation of them. *)
Class Helpers := {
  IsStringAttributeEmpty : StringValue → bool;
  IsGreaterThanOrEqual : string → string → bool * option error;
  OptionalList : ListValue → outcome (option (list string) * option error);
}.

(** [OptionalMap] *)
Definition OptionalMap (tfVal : MapValue)
  : outcome (option (gmap string string) * option error) :=
  if Map_IsNull tfVal || Map_IsUnknown tfVal then Done (None, None)
  else
    let result : option (gmap string string) := Some ∅ in
    let '(result, d) := Map_ElementsAs tfVal result in
    if diag.HasError d then
      e ← index0 (diag.Errors d);
      Done (None, Some (Errorf "error converting to map object " (diag.Detail e)))
    else Done (result, None).

(** [StringListToArray] *)
Definition StringListToArray (tfVal : ListValue)
  : outcome (option (list string) * option error) :=
  if List_IsNull tfVal || List_IsUnknown tfVal then Done (None, None)
  else
    let result : option (list string) :=
      Some (replicate (length (List_Elements tfVal)) "") in
    let '(result, d) := List_ElementsAs tfVal result in
    if diag.HasError d then
      e ← index0 (diag.Errors d);
      Done (None, Some (Errorf "error converting to map object " (diag.Detail e)))
    else Done (result, None).

(** [BoolWithFalseDefault] *)
Definition BoolWithFalseDefault (tfVal : BoolValue) : bool :=
  if negb (Bool_IsNull tfVal) && negb (Bool_IsUnknown tfVal) then ValueBool tfVal
  else false.

Section to_framework.
(** The constructors [types.MapValue] and [types.ListValue] of the plugin
    framework. The two conversions below are stated over any constructor,
    so that what they do with its diagnostics can be read off; the
    framework's own constructors are [NewMapValue] and [NewListValue]. *)
Context (types_MapValue : Type_ → gmap string Value → MapValue * diag.Diagnostics).
Context (types_ListValue : Type_ → list Value → ListValue * diag.Diagnostics).

(** [ConvertStringMapToMapType]. The error built when the diagnostics have
    an error is not returned: [fmt.Errorf] is called as a statement. *)
Definition ConvertStringMapToMapType (stringMap : option (gmap string string))
  : outcome (MapValue * option error) :=
  let elements : gmap string Value :=
    (fun v => VString (NewStringValue v)) <$> default ∅ stringMap in
  let '(mapValue, diags) := types_MapValue StringType elements in
  _ ← (if bool_decide (diags ≠ []) && diag.HasError diags then
         e ← index0 (diag.Errors diags);
         Done (Some (Errorf "failed to convert to MapType " (diag.Detail e)))
       else Done None);
  Done (mapValue, None).

(** [StringArrayToList], with the same unused [fmt.Errorf]. *)
Definition StringArrayToList (stringList : option (list string))
  : outcome (ListValue * option error) :=
  let elements : list Value :=
    foldl (fun elements e => elements ++ [VString (NewStringValue e)])
          [] (default [] stringList) in
  let '(listValue, diags) := types_ListValue StringType elements in
  _ ← (if bool_decide (diags ≠ []) && diag.HasError diags then
         e ← index0 (diag.Errors diags);
         Done (Some (Errorf "failed to convert to List type " (diag.Detail e)))
       else Done None);
  Done (listValue, None).
End to_framework.

End common.

(** ** The OCM SDK: ingress objects, builders and the clusters client *)

Module cmv1.

(** An ingress of a cluster, restricted to the attributes this code reads or
    writes. [None] is an attribute that is not present (its bit in the
    object's bitmap is clear). *)
Record Ingress := mkIngress {
  id : option string;
  default_ : option bool;
  routeSelectors : option (gmap string string);
  excludedNamespaces : option (list string);
  routeWildcardPolicy : option string;
  routeNamespaceOwnershipPolicy : option string;
  clusterRoutesHostname : option string;
  clusterRoutesTlsSecretRef : option string;
}.

#[global] Instance Ingress_eq_dec : EqDecision Ingress.
Proof. solve_decision. Defined.

(** Getters: [X()] gives the zero value for an absent attribute, [GetX()]
    gives the value and whether it is present. *)
Definition ID (o : Ingress) : string := default "" (id o).
Definition Default (o : Ingress) : bool := default false (default_ o).
Definition GetRouteSelectors (o : Ingress) : option (gmap string string) * bool :=
  (routeSelectors o, bool_decide (is_Some (routeSelectors o))).
Definition GetExcludedNamespaces (o : Ingress) : option (list string) * bool :=
  (excludedNamespaces o, bool_decide (is_Some (excludedNamespaces o))).
Definition GetRouteWildcardPolicy (o : Ingress) : string * bool :=
  (default "" (routeWildcardPolicy o), bool_decide (is_Some (routeWildcardPolicy o))).
Definition GetRouteNamespaceOwnershipPolicy (o : Ingress) : string * bool :=
  (default "" (routeNamespaceOwnershipPolicy o),
   bool_decide (is_Some (routeNamespaceOwnershipPolicy o))).
Definition GetClusterRoutesHostname (o : Ingress) : string * bool :=
  (default "" (clusterRoutesHostname o), bool_decide (is_Some (clusterRoutesHostname o))).
Definition GetClusterRoutesTlsSecretRef (o : Ingress) : string * bool :=
  (default "" (clusterRoutesTlsSecretRef o),
   bool_decide (is_Some (clusterRoutesTlsSecretRef o))).

(** [IngressBuilder]: the attributes set so far. *)
Record IngressBuilder := mkIngressBuilder { built : Ingress }.

(** [cmv1.NewIngress()] *)
Definition NewIngress : IngressBuilder :=
  mkIngressBuilder (mkIngress None None None None None None None None).

(** The setters are methods on a pointer: on a nil builder they panic. A nil
    map given to [RouteSelectors] clears the attribute; [ExcludedNamespaces]
    copies its arguments into a fresh slice, so the attribute is present even
    when there are none. *)
Definition IngressBuilder_RouteSelectors (value : option (gmap string string))
    (b : option IngressBuilder) : outcome (option IngressBuilder) :=
  b ← deref b;
  let o := built b in
  Done (Some (mkIngressBuilder
    (mkIngress (id o) (default_ o) value (excludedNamespaces o)
       (routeWildcardPolicy o) (routeNamespaceOwnershipPolicy o)
       (clusterRoutesHostname o) (clusterRoutesTlsSecretRef o)))).

Definition IngressBuilder_ExcludedNamespaces (values : option (list string))
    (b : option IngressBuilder) : outcome (option IngressBuilder) :=
  b ← deref b;
  let o := built b in
  Done (Some (mkIngressBuilder
    (mkIngress (id o) (default_ o) (routeSelectors o) (Some (default [] values))
       (routeWildcardPolicy o) (routeNamespaceOwnershipPolicy o)
       (clusterRoutesHostname o) (clusterRoutesTlsSecretRef o)))).

Definition IngressBuilder_RouteWildcardPolicy (value : string)
    (b : option IngressBuilder) : outcome (option IngressBuilder) :=
  b ← deref b;
  let o := built b in
  Done (Some (mkIngressBuilder
    (mkIngress (id o) (default_ o) (routeSelectors o) (excludedNamespaces o)
       (Some value) (routeNamespaceOwnershipPolicy o)
       (clusterRoutesHostname o) (clusterRoutesTlsSecretRef o)))).

Definition IngressBuilder_RouteNamespaceOwnershipPolicy (value : string)
    (b : option IngressBuilder) : outcome (option IngressBuilder) :=
  b ← deref b;
  let o := built b in
  Done (Some (mkIngressBuilder
    (mkIngress (id o) (default_ o) (routeSelectors o) (excludedNamespaces o)
       (routeWildcardPolicy o) (Some value)
       (clusterRoutesHostname o) (clusterRoutesTlsSecretRef o)))).

Definition IngressBuilder_ClusterRoutesHostname (value : string)
    (b : option IngressBuilder) : outcome (option IngressBuilder) :=
  b ← deref b;
  let o := built b in
  Done (Some (mkIngressBuilder
    (mkIngress (id o) (default_ o) (routeSelectors o) (excludedNamespaces o)
       (routeWildcardPolicy o) (routeNamespaceOwnershipPolicy o)
       (Some value) (clusterRoutesTlsSecretRef o)))).

Definition IngressBuilder_ClusterRoutesTlsSecretRef (value : string)
    (b : option IngressBuilder) : outcome (option IngressBuilder) :=
  b ← deref b;
  let o := built b in
  Done (Some (mkIngressBuilder
    (mkIngress (id o) (default_ o) (routeSelectors o) (excludedNamespaces o)
       (routeWildcardPolicy o) (routeNamespaceOwnershipPolicy o)
       (clusterRoutesHostname o) (Some value)))).

Definition IngressBuilder_Default (value : bool)
    (b : option IngressBuilder) : outcome (option IngressBuilder) :=
  b ← deref b;
  let o := built b in
  Done (Some (mkIngressBuilder
    (mkIngress (id o) (Some value) (routeSelectors o) (excludedNamespaces o)
       (routeWildcardPolicy o) (routeNamespaceOwnershipPolicy o)
       (clusterRoutesHostname o) (clusterRoutesTlsSecretRef o)))).

(** [b.Build()]: copies the attributes; it has no failing case for the
    attributes kept here. *)
Definition IngressBuilder_Build (b : option IngressBuilder)
  : outcome (Ingress * option error) :=
  b ← deref b;
  Done (built b, None).

(** A request sent to the remote API. *)
Inductive Call :=
| IngressesList (cluster : string)
| IngressUpdate (cluster ingress : string) (body : Ingress).

#[global] Instance Call_eq_dec : EqDecision Call.
Proof. solve_decision. Defined.

(** The remote side of a connection: what each request is answered with. *)
Record ClustersClient := mkClustersClient {
  list_response : string → list Ingress + error;
  update_response : string → string → Ingress → Ingress + error;
}.

(** [clusterCollection.Cluster(clusterId).Ingresses()] *)
Record IngressesClient := mkIngressesClient {
  connection : ClustersClient;
  cluster : string;
}.

Definition Ingresses (clusterCollection : ClustersClient) (clusterId : string)
  : IngressesClient := mkIngressesClient clusterCollection clusterId.

(** [ClusterBuilder], restricted to the list of ingresses; the other
    attributes set so far are kept by name. [IngressListBuilder] is the list
    of the builders given to [Items], which are pointers. *)
Record ClusterBuilder := mkClusterBuilder {
  cluster_attributes : gmap string string;
  cluster_ingresses : option (list (option IngressBuilder));
}.

(** [cmv1.NewIngressList().Items(values...)] *)
Definition NewIngressList_Items (values : list (option IngressBuilder))
  : list (option IngressBuilder) := values.

(** [clusterBuilder.Ingresses(value)], a method on a pointer. *)
Definition ClusterBuilder_Ingresses (value : list (option IngressBuilder))
    (b : option ClusterBuilder) : outcome (option ClusterBuilder) :=
  b ← deref b;
  Done (Some (mkClusterBuilder (cluster_attributes b) (Some value))).

(** A user of a group, restricted to its identifier. *)
Record User := mkUser {
  user_id : option string;
}.

Definition User_GetID (o : User) : string * bool :=
  (default "" (user_id o), bool_decide (is_Some (user_id o))).

(** [cmv1.NewUser()], [builder.ID(value)] and [builder.Build()], which has
    no failing case. *)
Record UserBuilder := mkUserBuilder { user_built : User }.

Definition NewUser : UserBuilder := mkUserBuilder (mkUser None).

Definition UserBuilder_ID (value : string) (b : UserBuilder) : UserBuilder :=
  mkUserBuilder (mkUser (Some value)).

Definition UserBuilder_Build (b : UserBuilder) : User * option error :=
  (user_built b, None).

(** The requests of the group-membership resource. [ClusterPoll] stands for
    the polling of the cluster until it is ready or the time is over, which is
    the SDK's loop. *)
Inductive UsersCall :=
| ClusterPoll (cluster : string)
| UsersAdd (cluster group : string) (body : User)
| UserGet (cluster group user : string)
| UserDelete (cluster group user : string).

(** What the remote side answers to these requests. *)
Record UsersRemote := mkUsersRemote {
  poll_response : string → option error;
  add_response : string → string → User → User + error;
  get_response : string → string → string → User + error;
  delete_response : string → string → string → option error;
}.

End cmv1.

(** ** Computations that talk to the remote API

    The trace of the requests sent, and the outcome. *)
Definition remote (A : Type) : Type := list cmv1.Call * outcome A.

#[global] Instance remote_ret : MRet remote := fun A a => ([], Done a).
#[global] Instance remote_bind : MBind remote := fun A B f m =>
  match m with
  | (t, Done a) => let '(t', r) := f a in (t ++ t', r)
  | (t, Panic) => (t, Panic)
  end.

(** A computation that sends nothing. *)
Definition local {A : Type} (o : outcome A) : remote A := ([], o).

(** [client.List().SendContext(ctx)], with [Items().Slice()] of the response. *)
Definition List_Send (client : cmv1.IngressesClient)
  : remote (list cmv1.Ingress + error) :=
  ([cmv1.IngressesList (cmv1.cluster client)],
   Done (cmv1.list_response (cmv1.connection client) (cmv1.cluster client))).

(** [client.Ingress(id).Update().Body(body).SendContext(ctx)] *)
Definition Update_Send (client : cmv1.IngressesClient) (ingressId : string)
    (body : cmv1.Ingress) : remote (cmv1.Ingress + error) :=
  ([cmv1.IngressUpdate (cmv1.cluster client) ingressId body],
   Done (cmv1.update_response (cmv1.connection client) (cmv1.cluster client) ingressId body)).

(** The same for the requests on the users of a group. *)
Definition usersRemote (A : Type) : Type := list cmv1.UsersCall * outcome A.

#[global] Instance usersRemote_ret : MRet usersRemote := fun A a => ([], Done a).
#[global] Instance usersRemote_bind : MBind usersRemote := fun A B f m =>
  match m with
  | (t, Done a) => let '(t', r) := f a in (t ++ t', r)
  | (t, Panic) => (t, Panic)
  end.

(** [resource.Poll().Interval(...).Predicate(...).StartContext(pollCtx)]: only
    the error of the result is used. *)
Definition Poll_Start (world : cmv1.UsersRemote) (cluster : string)
  : usersRemote (option error) :=
  ([cmv1.ClusterPoll cluster], Done (cmv1.poll_response world cluster)).

(** [collection.Add().Body(object).SendContext(ctx)], with [Body()] of the
    response. *)
Definition Add_Send (world : cmv1.UsersRemote) (cluster group : string)
    (object : cmv1.User) : usersRemote (cmv1.User + error) :=
  ([cmv1.UsersAdd cluster group object], Done (cmv1.add_response world cluster group object)).

(** [obj.Get().SendContext(ctx)], with [Body()] of the response. *)
Definition Get_Send (world : cmv1.UsersRemote) (cluster group user : string)
  : usersRemote (cmv1.User + error) :=
  ([cmv1.UserGet cluster group user], Done (cmv1.get_response world cluster group user)).

(** [obj.Delete().SendContext(ctx)] *)
Definition Delete_Send (world : cmv1.UsersRemote) (cluster group user : string)
  : usersRemote (option error) :=
  ([cmv1.UserDelete cluster group user], Done (cmv1.delete_response world cluster group user)).

(** ** [provider/defaultingress] *)

Module defaultingress.
Import basetypes.

Definition lowestDefaultIngressVer : string := "4.14.0-0".

Record DefaultIngress := mkDefaultIngress {
  RouteSelectors : MapValue;
  ExcludedNamespaces : ListValue;
  WildcardPolicy : StringValue;
  NamespaceOwnershipPolicy : StringValue;
  Id : StringValue;
  ClusterRoutesHostname : StringValue;
  ClusterRoutesTlsSecretRef : StringValue;
}.

#[global] Instance DefaultIngress_eq_dec : EqDecision DefaultIngress.
Proof. solve_decision. Defined.

(** [DefaultIngress{}]: every field is the zero value of its struct. *)
Definition zeroDefaultIngress : DefaultIngress :=
  mkDefaultIngress (mkMapValue None None valueStateNull)
    (mkListValue None None valueStateNull)
    NewStringNull NewStringNull NewStringNull NewStringNull NewStringNull.

(** Assignments to one field. *)
Definition set_RouteSelectors (v : MapValue) (s : DefaultIngress) : DefaultIngress :=
  mkDefaultIngress v (ExcludedNamespaces s) (WildcardPolicy s)
    (NamespaceOwnershipPolicy s) (Id s) (ClusterRoutesHostname s)
    (ClusterRoutesTlsSecretRef s).
Definition set_ExcludedNamespaces (v : ListValue) (s : DefaultIngress) : DefaultIngress :=
  mkDefaultIngress (RouteSelectors s) v (WildcardPolicy s)
    (NamespaceOwnershipPolicy s) (Id s) (ClusterRoutesHostname s)
    (ClusterRoutesTlsSecretRef s).
Definition set_WildcardPolicy (v : StringValue) (s : DefaultIngress) : DefaultIngress :=
  mkDefaultIngress (RouteSelectors s) (ExcludedNamespaces s) v
    (NamespaceOwnershipPolicy s) (Id s) (ClusterRoutesHostname s)
    (ClusterRoutesTlsSecretRef s).
Definition set_NamespaceOwnershipPolicy (v : StringValue) (s : DefaultIngress)
  : DefaultIngress :=
  mkDefaultIngress (RouteSelectors s) (ExcludedNamespaces s) (WildcardPolicy s)
    v (Id s) (ClusterRoutesHostname s) (ClusterRoutesTlsSecretRef s).
Definition set_Id (v : StringValue) (s : DefaultIngress) : DefaultIngress :=
  mkDefaultIngress (RouteSelectors s) (ExcludedNamespaces s) (WildcardPolicy s)
    (NamespaceOwnershipPolicy s) v (ClusterRoutesHostname s)
    (ClusterRoutesTlsSecretRef s).
Definition set_ClusterRoutesHostname (v : StringValue) (s : DefaultIngress)
  : DefaultIngress :=
  mkDefaultIngress (RouteSelectors s) (ExcludedNamespaces s) (WildcardPolicy s)
    (NamespaceOwnershipPolicy s) (Id s) v (ClusterRoutesTlsSecretRef s).
Definition set_ClusterRoutesTlsSecretRef (v : StringValue) (s : DefaultIngress)
  : DefaultIngress :=
  mkDefaultIngress (RouteSelectors s) (ExcludedNamespaces s) (WildcardPolicy s)
    (NamespaceOwnershipPolicy s) (Id s) (ClusterRoutesHostname s) v.

(** The body of the loop of [PopulateDefaultIngress] for an ingress that is
    the default one: the fields of the state are assigned one after the
    other from the remote object. *)
Definition populateFromDefault (state : option DefaultIngress) (ingress : cmv1.Ingress)
  : outcome (option DefaultIngress * option error) :=
  let state := match state with None => zeroDefaultIngress | Some s => s end in
  let state := set_Id (NewStringValue (cmv1.ID ingress)) state in
  let '(routeSelectors, ok) := cmv1.GetRouteSelectors ingress in
  '(state, err) ←
    (if ok then
       '(v, err) ← common.ConvertStringMapToMapType NewMapValue routeSelectors;
       Done (set_RouteSelectors v state, err)
     else Done (state, None));
  match err with
  | Some e => Done (None, Some e)
  | None =>
      let '(excludedNamespaces, ok) := cmv1.GetExcludedNamespaces ingress in
      '(state, err) ←
        (if ok then
           '(v, err) ← common.StringArrayToList NewListValue excludedNamespaces;
           Done (set_ExcludedNamespaces v state, err)
         else Done (state, None));
      match err with
      | Some e => Done (None, Some e)
      | None =>
          let '(wp, ok) := cmv1.GetRouteWildcardPolicy ingress in
          let state :=
            if ok then set_WildcardPolicy (NewStringValue wp) state
            else set_WildcardPolicy NewStringNull state in
          let '(rnmop, ok) := cmv1.GetRouteNamespaceOwnershipPolicy ingress in
          let state :=
            if ok then set_NamespaceOwnershipPolicy (NewStringValue rnmop) state
            else set_NamespaceOwnershipPolicy NewStringNull state in
          let '(hostname, ok) := cmv1.GetClusterRoutesHostname ingress in
          let state :=
            if ok then set_ClusterRoutesHostname (NewStringValue hostname) state
            else set_ClusterRoutesHostname NewStringNull state in
          let '(tls, ok) := cmv1.GetClusterRoutesTlsSecretRef ingress in
          let state :=
            if ok then set_ClusterRoutesTlsSecretRef (NewStringValue tls) state
            else set_ClusterRoutesTlsSecretRef NewStringNull state in
          Done (Some state, None)
      end
  end.

(** The loop of [PopulateDefaultIngress]: the first ingress marked default
    is used and ends the loop; with none the state is returned as it is. *)
Fixpoint populateLoop (state : option DefaultIngress) (items : list cmv1.Ingress)
  : outcome (option DefaultIngress * option error) :=
  match items with
  | [] => Done (state, None)
  | ingress :: rest =>
      if cmv1.Default ingress then populateFromDefault state ingress
      else populateLoop state rest
  end.

(** [PopulateDefaultIngress] *)
Definition PopulateDefaultIngress (state : option DefaultIngress)
    (client : cmv1.IngressesClient) : remote (option DefaultIngress * option error) :=
  match state with
  | None => mret (None, None)
  | Some _ =>
      ingresses ← List_Send client;
      match ingresses with
      | inr err => mret (None, Some err)
      | inl items => local (populateLoop state items)
      end
  end.

Section with_helpers.
Context `{!common.Helpers}.

(** [getDefaultIngressBuilder]; [None] is the nil builder. *)
Definition getDefaultIngressBuilder (state : option DefaultIngress)
  : outcome (option cmv1.IngressBuilder) :=
  let ingressBuilder := Some cmv1.NewIngress in
  st ← deref state;
  '(routeSelectors, err) ← common.OptionalMap (RouteSelectors st);
  match err with
  | Some _ => Done None
  | None =>
      let routeSelectors :=
        match routeSelectors with None => Some ∅ | Some m => Some m end in
      ingressBuilder ← cmv1.IngressBuilder_RouteSelectors routeSelectors ingressBuilder;
      '(excludedNamespace, err) ← common.OptionalList (ExcludedNamespaces st);
      match err with
      | Some _ => Done None
      | None =>
          let excludedNamespace :=
            match excludedNamespace with None => Some [] | Some l => Some l end in
          ingressBuilder ←
            cmv1.IngressBuilder_ExcludedNamespaces excludedNamespace ingressBuilder;
          ingressBuilder ←
            (if negb (common.IsStringAttributeEmpty (WildcardPolicy st)) then
               cmv1.IngressBuilder_RouteWildcardPolicy
                 (ValueString (WildcardPolicy st)) ingressBuilder
             else Done ingressBuilder);
          ingressBuilder ←
            (if negb (common.IsStringAttributeEmpty (NamespaceOwnershipPolicy st)) then
               cmv1.IngressBuilder_RouteNamespaceOwnershipPolicy
                 (ValueString (NamespaceOwnershipPolicy st)) ingressBuilder
             else Done ingressBuilder);
          Done ingressBuilder
      end
  end.

(** [ValidateDefaultIngress]. The messages are also sent to the log, which
    is not modelled. [fmt.Errorf(msg)] is [msg] as long as [msg] has no
    formatting verb. *)
Definition ValidateDefaultIngress (state : option DefaultIngress) (version : string)
  : option error :=
  match state with
  | None => None
  | Some ingress =>
      let '(greater, err) := common.IsGreaterThanOrEqual version lowestDefaultIngressVer in
      match err with
      | Some e => Some (Errorf ("version '" +:+ version +:+ "' is not supported: ") e)
      | None =>
          if negb greater then
            Some ("version '" +:+ version +:+ "' is not supported with default ingress, "
                    +:+ "minimum supported version is " +:+ lowestDefaultIngressVer)
          else if common.IsStringAttributeEmpty (Id ingress)
                  && (negb (common.IsStringAttributeEmpty (ClusterRoutesHostname ingress))
                      || negb (common.IsStringAttributeEmpty (ClusterRoutesTlsSecretRef ingress)))
          then
            Some ("default_ingress params: cluster_routes_hostname and cluster_routes_tls_secret_ref "
                    +:+ "can't be set on cluster creation")
          else if negb (Bool.eqb (common.IsStringAttributeEmpty (ClusterRoutesHostname ingress))
                            (common.IsStringAttributeEmpty (ClusterRoutesTlsSecretRef ingress)))
          then
            Some "default_ingress params: cluster_routes_hostname and cluster_routes_tls_secret_ref must be set together"
          else None
      end
  end.

(** [UpdateIngress] *)
Definition UpdateIngress (state plan : option DefaultIngress)
    (clusterId version : string) (clusterCollection : cmv1.ClustersClient)
  : remote (option error) :=
  if negb (DeepEqual state plan) then
    match ValidateDefaultIngress plan version with
    | Some err => mret (Some err)
    | None =>
        '(state, err) ←
          (if match state with
              | None => true
              | Some st => common.IsStringAttributeEmpty (Id st)
              end
           then
             let state := Some zeroDefaultIngress in
             PopulateDefaultIngress state (cmv1.Ingresses clusterCollection clusterId)
           else mret (state, None));
        match err with
        | Some e => mret (Some e)
        | None =>
            ingressBuilder ← local (getDefaultIngressBuilder plan);
            st ← local (deref state);
            pl ← local (deref plan);
            ingressBuilder ←
              (if negb (DeepEqual (ClusterRoutesHostname st) (ClusterRoutesHostname pl)) then
                 local (cmv1.IngressBuilder_ClusterRoutesHostname
                          (ValueString (ClusterRoutesHostname pl)) ingressBuilder)
               else mret ingressBuilder);
            ingressBuilder ←
              (if negb (DeepEqual (ClusterRoutesTlsSecretRef st)
                                  (ClusterRoutesTlsSecretRef pl)) then
                 local (cmv1.IngressBuilder_ClusterRoutesTlsSecretRef
                          (ValueString (ClusterRoutesTlsSecretRef pl)) ingressBuilder)
               else mret ingressBuilder);
            '(ingress, err) ← local (cmv1.IngressBuilder_Build ingressBuilder);
            match err with
            | Some e => mret (Some e)
            | None =>
                response ←
                  Update_Send (cmv1.Ingresses clusterCollection clusterId)
                    (ValueString (Id st)) ingress;
                match response with
                | inr e => mret (Some e)
                | inl _ => mret None
                end
            end
        end
    end
  else mret None.
(** [SetIngress]. [Default(true)] is called on the builder that
    [getDefaultIngressBuilder] returned, nil or not. *)
Definition SetIngress (state : option DefaultIngress)
    (clusterBuilder : option cmv1.ClusterBuilder) : outcome (option cmv1.ClusterBuilder) :=
  match state with
  | None => Done clusterBuilder
  | Some _ =>
      ingressBuilder ← getDefaultIngressBuilder state;
      ingressBuilder ← cmv1.IngressBuilder_Default true ingressBuilder;
      cmv1.ClusterBuilder_Ingresses (cmv1.NewIngressList_Items [ingressBuilder])
        clusterBuilder
  end.

End with_helpers.

End defaultingress.

(** ** [provider/groupmembership] *)

Module groupmembership.
Import basetypes.

(** The state of a group membership; its fields are those the resource
    reads and writes. *)
Record GroupMembershipState := mkGroupMembershipState {
  Cluster : StringValue;
  Group : StringValue;
  ID : StringValue;
  User : StringValue;
}.

Record GroupMembershipResource := mkGroupMembershipResource {
  collection : cmv1.ClustersClient;
}.

(** [resource.UpdateRequest] and [resource.UpdateResponse]: the response
    comes with the prior state already in it. *)
Record UpdateRequest := mkUpdateRequest {
  req_Plan : option GroupMembershipState;
  req_State : option GroupMembershipState;
}.

Record UpdateResponse := mkUpdateResponse {
  State : option GroupMembershipState;
  Diagnostics : diag.Diagnostics;
}.

(** [Update]: the response is changed in place; here it is returned. *)
Definition Update (g : GroupMembershipResource) (req : UpdateRequest)
    (resp : UpdateResponse) : remote UpdateResponse :=
  mret (mkUpdateResponse (State resp)
          (diag.AddError (Diagnostics resp)
             "Can't update group membership" "Update is currently not supported.")).

(** [resource.CreateResponse], [resource.ReadResponse] and
    [resource.DeleteResponse], restricted to the state and the diagnostics. *)
Record Response := mkResponse {
  resp_State : option GroupMembershipState;
  resp_Diagnostics : diag.Diagnostics;
}.

(** A create, read or delete request, by what [req.Plan.Get] (for a create)
    or [req.State.Get] (for a read or a delete) puts in the state struct and
    the diagnostics it returns. *)
Record Request := mkRequest {
  req_Get : GroupMembershipState * diag.Diagnostics;
}.

(** [populateState] *)
Definition populateState (object : cmv1.User) (state : GroupMembershipState)
  : GroupMembershipState :=
  let '(id, ok) := cmv1.User_GetID object in
  if ok then
    mkGroupMembershipState (Cluster state) (Group state) (NewStringValue id)
      (NewStringValue id)
  else state.

Section operations.
(** [strconv.Quote], by which [String()] shows a known value. *)
Context (quote : string → string).

(** [Create]. [resp.State.Set] stores the state struct and returns no
    diagnostic. *)
Definition Create (g : GroupMembershipResource) (world : cmv1.UsersRemote)
    (req : Request) (resp : Response) : usersRemote Response :=
  let '(state, diags) := req_Get req in
  let resp := mkResponse (resp_State resp) (diag.AppendAll (resp_Diagnostics resp) diags) in
  if diag.HasError (resp_Diagnostics resp) then mret resp
  else
    let cluster := String_String quote (Cluster state) in
    err ← Poll_Start world cluster;
    match err with
    | Some err =>
        mret (mkResponse (resp_State resp)
                (diag.AddError (resp_Diagnostics resp) "Can't poll cluster state"
                   ("Can't poll state of cluster with identifier '" +:+ cluster
                      +:+ "': " +:+ err)))
    | None =>
        let builder := cmv1.NewUser in
        let builder := cmv1.UserBuilder_ID (String_String quote (User state)) builder in
        let '(object, err) := cmv1.UserBuilder_Build builder in
        match err with
        | Some err =>
            mret (mkResponse (resp_State resp)
                    (diag.AddError (resp_Diagnostics resp) "Can't build group membership"
                       ("Can't build group membership for cluster '" +:+ cluster
                          +:+ "' and group '" +:+ String_String quote (Group state)
                          +:+ "': " +:+ err)))
        | None =>
            add ← Add_Send world cluster (String_String quote (Group state)) object;
            match add with
            | inr err =>
                mret (mkResponse (resp_State resp)
                        (diag.AddError (resp_Diagnostics resp)
                           "Can't create group membership"
                           ("Can't create group membership for cluster '" +:+ cluster
                              +:+ "' and group '" +:+ String_String quote (Group state)
                              +:+ "': " +:+ err)))
            | inl object =>
                let state := populateState object state in
                mret (mkResponse (Some state)
                        (diag.AppendAll (resp_Diagnostics resp) []))
            end
        end
    end.

(** [Read] *)
Definition Read (g : GroupMembershipResource) (world : cmv1.UsersRemote)
    (req : Request) (resp : Response) : usersRemote Response :=
  let '(state, diags) := req_Get req in
  let resp := mkResponse (resp_State resp) (diag.AppendAll (resp_Diagnostics resp) diags) in
  if diag.HasError (resp_Diagnostics resp) then mret resp
  else
    get ← Get_Send world (String_String quote (Cluster state))
             (String_String quote (Group state)) (String_String quote (ID state));
    match get with
    | inr err =>
        mret (mkResponse (resp_State resp)
                (diag.AddError (resp_Diagnostics resp) "Can't find group membership"
                   ("Can't find user group membership identifier '"
                      +:+ String_String quote (ID state) +:+ "' for cluster '"
                      +:+ String_String quote (Cluster state) +:+ "' and group '"
                      +:+ String_String quote (Group state) +:+ "': " +:+ err)))
    | inl object =>
        let state := populateState object state in
        mret (mkResponse (Some state) (diag.AppendAll (resp_Diagnostics resp) []))
    end.

(** [Delete]. [resp.State.RemoveResource] leaves no state. *)
Definition Delete (g : GroupMembershipResource) (world : cmv1.UsersRemote)
    (req : Request) (resp : Response) : usersRemote Response :=
  let '(state, diags) := req_Get req in
  let resp := mkResponse (resp_State resp) (diag.AppendAll (resp_Diagnostics resp) diags) in
  if diag.HasError (resp_Diagnostics resp) then mret resp
  else
    err ← Delete_Send world (String_String quote (Cluster state))
             (String_String quote (Group state)) (String_String quote (ID state));
    match err with
    | Some err =>
        mret (mkResponse (resp_State resp)
                (diag.AddError (resp_Diagnostics resp) "Can't delete group membership"
                   ("Can't delete group membership with identifier '"
                      +:+ String_String quote (ID state) +:+ "' for cluster '"
                      +:+ String_String quote (Cluster state) +:+ "' and group '"
                      +:+ String_String quote (Group state) +:+ "': " +:+ err)))
    | None => mret (mkResponse None (resp_Diagnostics resp))
    end.
End operations.

End groupmembership.

(** ** [provider/ingress.go]: the same reconciler on the cluster state

    This file is written against an earlier version of the plugin framework,
    in which an attribute value is a struct with the flags [Unknown] and
    [Null] next to its value. *)

Module provider.

Record String_ := mkString {
  Unknown : bool;
  Null : bool;
  Value : string;
}.

#[global] Instance String_eq_dec : EqDecision String_.
Proof. solve_decision. Defined.

(** [attr.Value] and [attr.Type], restricted to the primitive ones. *)
Inductive AttrValue :=
| AString (s : String_)
| AInt64 (unknown null : bool) (v : Z)
| ABool (unknown null : bool) (v : bool).

#[global] Instance AttrValue_eq_dec : EqDecision AttrValue.
Proof. solve_decision. Defined.

Record Map_ := mkMap {
  Map_Unknown : bool;
  Map_Null : bool;
  Map_Elems : option (gmap string AttrValue);
  Map_ElemType : option basetypes.Type_;
}.

#[global] Instance Map_eq_dec : EqDecision Map_.
Proof. solve_decision. Defined.

Record List_ := mkList {
  List_Unknown : bool;
  List_Null : bool;
  List_Elems : option (list AttrValue);
  List_ElemType : option basetypes.Type_;
}.

#[global] Instance List_eq_dec : EqDecision List_.
Proof. solve_decision. Defined.

Definition lowestDefaultIngressVer : string := "4.14.0-0".

Record DefaultIngress := mkDefaultIngress {
  RouteSelectors : Map_;
  ExcludedNamespaces : List_;
  WildcardPolicy : String_;
  NamespaceOwnershipPolicy : String_;
  Id : String_;
  ClusterRoutesHostname : String_;
  ClusterRoutesTlsSecretRef : String_;
}.

#[global] Instance DefaultIngress_eq_dec : EqDecision DefaultIngress.
Proof. solve_decision. Defined.

Definition zeroString : String_ := mkString false false "".

(** [DefaultIngress{}] *)
Definition zeroDefaultIngress : DefaultIngress :=
  mkDefaultIngress (mkMap false false None None) (mkList false false None None)
    zeroString zeroString zeroString zeroString zeroString.

(** The cluster state, restricted to the fields the ingress code uses. *)
Record ClusterRosaClassicState := mkClusterRosaClassicState {
  ID : String_;
  Version : String_;
  DefaultIngress_ : option DefaultIngress;
}.

Definition set_DefaultIngress (v : option DefaultIngress) (s : ClusterRosaClassicState)
  : ClusterRosaClassicState :=
  mkClusterRosaClassicState (ID s) (Version s) v.

(** The functions of [provider/common], in the version this file is written
    against, whose source file is missing. *)
Class Helpers := {
  IsStringAttributeEmpty : String_ → bool;
  IsGreaterThanOrEqual : string → string → bool * option error;
  OptionalMap : Map_ → option (gmap string string);
  OptionalList : List_ → option (list string);
  MapStringToMapTypeWithNullAsEmpty : option (gmap string string) → Map_;
  StringArrayToListWithNullAsEmpty : option (list string) → List_;
  StringToStringType : string → String_;
}.

Section with_helpers.
Context `{!Helpers}.

(** The body of the loop of [populateDefaultIngress] for the default
    ingress: every field of the default ingress of the state is assigned. *)
Definition populateFromDefault (state : ClusterRosaClassicState) (ingress : cmv1.Ingress)
  : ClusterRosaClassicState :=
  set_DefaultIngress
    (Some (mkDefaultIngress
             (MapStringToMapTypeWithNullAsEmpty (cmv1.routeSelectors ingress))
             (StringArrayToListWithNullAsEmpty (cmv1.excludedNamespaces ingress))
             (mkString false false (default "" (cmv1.routeWildcardPolicy ingress)))
             (mkString false false
                (default "" (cmv1.routeNamespaceOwnershipPolicy ingress)))
             (mkString false false (cmv1.ID ingress))
             (StringToStringType (default "" (cmv1.clusterRoutesHostname ingress)))
             (StringToStringType (default "" (cmv1.clusterRoutesTlsSecretRef ingress)))))
    state.

Fixpoint populateLoop (state : ClusterRosaClassicState) (items : list cmv1.Ingress)
  : ClusterRosaClassicState :=
  match items with
  | [] => state
  | ingress :: rest =>
      if cmv1.Default ingress then populateFromDefault state ingress
      else populateLoop state rest
  end.

(** [populateDefaultIngress]: the state is changed in place; here the new
    state is returned next to the error. *)
Definition populateDefaultIngress (state : ClusterRosaClassicState)
    (client : cmv1.IngressesClient) : remote (ClusterRosaClassicState * option error) :=
  match DefaultIngress_ state with
  | None => mret (state, None)
  | Some _ =>
      ingresses ← List_Send client;
      match ingresses with
      | inr err => mret (state, Some err)
      | inl items => mret (populateLoop state items, None)
      end
  end.

(** [getDefaultIngressBuilder] *)
Definition getDefaultIngressBuilder (state : ClusterRosaClassicState)
  : outcome (option cmv1.IngressBuilder) :=
  let ingressBuilder := Some cmv1.NewIngress in
  d ← deref (DefaultIngress_ state);
  let routeSelectors := OptionalMap (RouteSelectors d) in
  let routeSelectors :=
    match routeSelectors with None => Some ∅ | Some m => Some m end in
  ingressBuilder ← cmv1.IngressBuilder_RouteSelectors routeSelectors ingressBuilder;
  ingressBuilder ←
    cmv1.IngressBuilder_ExcludedNamespaces (OptionalList (ExcludedNamespaces d))
      ingressBuilder;
  ingressBuilder ←
    (if negb (IsStringAttributeEmpty (WildcardPolicy d)) then
       cmv1.IngressBuilder_RouteWildcardPolicy (Value (WildcardPolicy d)) ingressBuilder
     else Done ingressBuilder);
  ingressBuilder ←
    (if negb (IsStringAttributeEmpty (NamespaceOwnershipPolicy d)) then
       cmv1.IngressBuilder_RouteNamespaceOwnershipPolicy
         (Value (NamespaceOwnershipPolicy d)) ingressBuilder
     else Done ingressBuilder);
  Done ingressBuilder.

(** [validateDefaultIngress] *)
Definition validateDefaultIngress (state : ClusterRosaClassicState) (version : string)
  : option error :=
  match DefaultIngress_ state with
  | None => None
  | Some ingress =>
      let '(greater, err) := IsGreaterThanOrEqual version lowestDefaultIngressVer in
      match err with
      | Some e => Some (Errorf ("version '" +:+ version +:+ "' is not supported: ") e)
      | None =>
          if negb greater then
            Some ("version '" +:+ version +:+ "' is not supported with default ingress, "
                    +:+ "minimum supported version is " +:+ lowestDefaultIngressVer)
          else if IsStringAttributeEmpty (Id ingress)
                  && (negb (IsStringAttributeEmpty (ClusterRoutesHostname ingress))
                      || negb (IsStringAttributeEmpty (ClusterRoutesTlsSecretRef ingress)))
          then
            Some ("default_ingress params: cluster_routes_hostname and cluster_routes_tls_secret_ref "
                    +:+ "can't be set on cluster creation")
          else if negb (Bool.eqb (IsStringAttributeEmpty (ClusterRoutesHostname ingress))
                            (IsStringAttributeEmpty (ClusterRoutesTlsSecretRef ingress)))
          then
            Some "default_ingress params: cluster_routes_hostname and cluster_routes_tls_secret_ref must be set together"
          else None
      end
  end.

(** [updateIngress] *)
Definition updateIngress (state plan : ClusterRosaClassicState)
    (clusterCollection : cmv1.ClustersClient) : remote (option error) :=
  if negb (DeepEqual (DefaultIngress_ state) (DefaultIngress_ plan)) then
    match validateDefaultIngress plan (Value (Version state)) with
    | Some err => mret (Some err)
    | None =>
        '(state, err) ←
          (if match DefaultIngress_ state with
              | None => true
              | Some d => IsStringAttributeEmpty (Id d)
              end
           then
             let state := set_DefaultIngress (Some zeroDefaultIngress) state in
             populateDefaultIngress state
               (cmv1.Ingresses clusterCollection (Value (ID plan)))
           else mret (state, None));
        match err with
        | Some e => mret (Some e)
        | None =>
            ingressBuilder ← local (getDefaultIngressBuilder plan);
            st ← local (deref (DefaultIngress_ state));
            pl ← local (deref (DefaultIngress_ plan));
            ingressBuilder ←
              (if negb (DeepEqual (ClusterRoutesHostname st) (ClusterRoutesHostname pl)) then
                 local (cmv1.IngressBuilder_ClusterRoutesHostname
                          (Value (ClusterRoutesHostname pl)) ingressBuilder)
               else mret ingressBuilder);
            ingressBuilder ←
              (if negb (DeepEqual (ClusterRoutesTlsSecretRef st)
                                  (ClusterRoutesTlsSecretRef pl)) then
                 local (cmv1.IngressBuilder_ClusterRoutesTlsSecretRef
                          (Value (ClusterRoutesTlsSecretRef pl)) ingressBuilder)
               else mret ingressBuilder);
            '(ingress, err) ← local (cmv1.IngressBuilder_Build ingressBuilder);
            match err with
            | Some e => mret (Some e)
            | None =>
                response ←
                  Update_Send (cmv1.Ingresses clusterCollection (Value (ID plan)))
                    (Value (Id st)) ingress;
                match response with
                | inr e => mret (Some e)
                | inl _ => mret None
                end
            end
        end
    end
  else mret None.
(** [setIngress] *)
Definition setIngress (state : ClusterRosaClassicState)
    (clusterBuilder : option cmv1.ClusterBuilder) : outcome (option cmv1.ClusterBuilder) :=
  match DefaultIngress_ state with
  | None => Done clusterBuilder
  | Some _ =>
      ingressBuilder ← getDefaultIngressBuilder state;
      ingressBuilder ← cmv1.IngressBuilder_Default true ingressBuilder;
      cmv1.ClusterBuilder_Ingresses (cmv1.NewIngressList_Items [ingressBuilder])
        clusterBuilder
  end.

End with_helpers.

End provider.

(** ** [provider/common/types_validators.go] *)

Module validators.

(** [tfsdk.ValidateAttributeRequest], by what [req.Config.GetAttribute] puts
    in the value and the diagnostics it returns, and by the text of the last
    step of the attribute path. *)
Record ValidateAttributeRequest (V : Type) := mkValidateAttributeRequest {
  Config_GetAttribute : V * diag.Diagnostics;
  AttributePath_LastStep : string;
}.
Arguments mkValidateAttributeRequest {V} _ _.
Arguments Config_GetAttribute {V} _.
Arguments AttributePath_LastStep {V} _.

(** [AttributeValidator]: the validator works on the diagnostics of the
    response. *)
Record AttributeValidator (V : Type) := mkAttributeValidator {
  Desc : string;
  Validator : ValidateAttributeRequest V → diag.Diagnostics → diag.Diagnostics;
}.
Arguments mkAttributeValidator {V} _ _.
Arguments Desc {V} _.
Arguments Validator {V} _.

(** [NotEmptyList] *)
Definition NotEmptyList : list (AttributeValidator provider.List_) :=
  [mkAttributeValidator "Validate that list is not empty"
     (fun req resp =>
        let '(value, d) := Config_GetAttribute req in
        if diag.HasError d then resp
        else if (length (default [] (provider.List_Elems value)) =? 0)%nat
                && negb (Bool.eqb (provider.List_Null value) true)
        then
          diag.AddError resp ("Invalid " +:+ AttributePath_LastStep req +:+ ".")
            ("Expected at least one value in list for "
               +:+ AttributePath_LastStep req +:+ ".")
        else resp)].

(** [NotEmptyMap] *)
Definition NotEmptyMap : list (AttributeValidator provider.Map_) :=
  [mkAttributeValidator "Validate that list is not empty"
     (fun req resp =>
        let '(value, d) := Config_GetAttribute req in
        if diag.HasError d then resp
        else if (size (default ∅ (provider.Map_Elems value)) =? 0)%nat
                && negb (Bool.eqb (provider.Map_Null value) true)
        then
          diag.AddError resp ("Invalid " +:+ AttributePath_LastStep req +:+ ".")
            ("Expected at least one value in map for "
               +:+ AttributePath_LastStep req +:+ ".")
        else resp)].

End validators.

(** ** The helpers of [provider/common] whose source file is missing *)

Module helpers.
Import basetypes.

(** Modelled from the spec: [common.IsStringAttributeEmpty], whose source
    file is missing. An attribute is "set" when it is neither absent (null
    or unknown) nor the empty string. *)
Definition IsStringAttributeEmpty (param : StringValue) : bool :=
  String_IsUnknown param || String_IsNull param
  || bool_decide (ValueString param = "").

(** Modelled from the spec: [common.OptionalList], whose source file is
    missing. It is the list conversion of the attribute value bridge: nil for
    a null or unknown value, otherwise the elements or a conversion error. *)
Definition OptionalList (tfVal : ListValue)
  : outcome (option (list string) * option error) :=
  common.StringListToArray tfVal.

(** A semantic version with an optional pre-release suffix. *)
Record Version := mkVersion {
  major : N;
  minor : N;
  patch : N;
  prerelease : option string;
}.

Definition digitValue (c : ascii) : option N :=
  let n := N_of_ascii c in
  if (48 <=? n)%N && (n <=? 57)%N then Some (n - 48)%N else None.

Fixpoint parseDigits (s : string) (acc : N) : option N :=
  match s with
  | EmptyString => Some acc
  | String c s' =>
      match digitValue c with
      | Some d => parseDigits s' (10 * acc + d)%N
      | None => None
      end
  end.

Definition parseNumber (s : string) : option N :=
  match s with
  | EmptyString => None
  | _ => parseDigits s 0%N
  end.

(** The text before the first [sep] and, when there is one, the text after. *)
Fixpoint cut (sep : ascii) (s : string) : string * option string :=
  match s with
  | EmptyString => (EmptyString, None)
  | String c s' =>
      if bool_decide (c = sep) then (EmptyString, Some s')
      else let '(before, after) := cut sep s' in (String c before, after)
  end.

Fixpoint fields (sep : ascii) (s : string) (cur : string) : list string :=
  match s with
  | EmptyString => [cur]
  | String c s' =>
      if bool_decide (c = sep) then cur :: fields sep s' EmptyString
      else fields sep s' (cur +:+ String c EmptyString)
  end.

Definition parseVersion (s : string) : option Version :=
  let '(core, pre) := cut "-"%char s in
  match fields "."%char core EmptyString with
  | [a; b; c] =>
      match parseNumber a, parseNumber b, parseNumber c with
      | Some ma, Some mi, Some pa => Some (mkVersion ma mi pa pre)
      | _, _, _ => None
      end
  | _ => None
  end.

(** Major, minor, patch, then the pre-release: a version without one is
    above the same version with one. The spec does not order two
    pre-release suffixes; they are compared as strings. *)
Definition geVersion (v1 v2 : Version) : bool :=
  match N.compare (major v1) (major v2) with
  | Lt => false
  | Gt => true
  | Eq =>
      match N.compare (minor v1) (minor v2) with
      | Lt => false
      | Gt => true
      | Eq =>
          match N.compare (patch v1) (patch v2) with
          | Lt => false
          | Gt => true
          | Eq =>
              match prerelease v1, prerelease v2 with
              | None, _ => true
              | Some _, None => false
              | Some p1, Some p2 => String.leb p2 p1
              end
          end
      end
  end.

(** Modelled from the spec: [common.IsGreaterThanOrEqual], whose source file
    is missing. Both operands are parsed as semantic versions with an
    optional pre-release suffix; an operand that does not parse gives an
    error. *)
Definition IsGreaterThanOrEqual (version1 version2 : string) : bool * option error :=
  match parseVersion version1 with
  | None => (false, Some (Errorf "Malformed version: " version1))
  | Some v1 =>
      match parseVersion version2 with
      | None => (false, Some (Errorf "Malformed version: " version2))
      | Some v2 => (geVersion v1 v2, None)
      end
  end.

(** An implementation of the helpers of [provider/ingress.go], for running
    the examples: emptiness and version comparison as above, and the plain
    conversions between native and tool collections. *)
Definition provider_IsStringAttributeEmpty (param : provider.String_) : bool :=
  provider.Unknown param || provider.Null param
  || bool_decide (provider.Value param = "").

Definition provider_asString (v : provider.AttrValue) : option string :=
  match v with
  | provider.AString s => Some (provider.Value s)
  | _ => None
  end.

Definition provider_OptionalMap (tfVal : provider.Map_) : option (gmap string string) :=
  if provider.Map_Unknown tfVal || provider.Map_Null tfVal then None
  else Some (omap provider_asString (default ∅ (provider.Map_Elems tfVal))).

Definition provider_OptionalList (tfVal : provider.List_) : option (list string) :=
  if provider.List_Unknown tfVal || provider.List_Null tfVal then None
  else Some (omap provider_asString (default [] (provider.List_Elems tfVal))).

Definition provider_StringToStringType (s : string) : provider.String_ :=
  provider.mkString false (bool_decide (s = "")) s.

Definition provider_MapStringToMapTypeWithNullAsEmpty (m : option (gmap string string))
  : provider.Map_ :=
  provider.mkMap false false
    (Some ((fun v => provider.AString (provider.mkString false false v)) <$> default ∅ m))
    (Some StringType).

Definition provider_StringArrayToListWithNullAsEmpty (l : option (list string))
  : provider.List_ :=
  provider.mkList false false
    (Some ((fun v => provider.AString (provider.mkString false false v)) <$> default [] l))
    (Some StringType).

#[global] Instance sample_provider_helpers : provider.Helpers := {|
  provider.IsStringAttributeEmpty := provider_IsStringAttributeEmpty;
  provider.IsGreaterThanOrEqual := IsGreaterThanOrEqual;
  provider.OptionalMap := provider_OptionalMap;
  provider.OptionalList := provider_OptionalList;
  provider.MapStringToMapTypeWithNullAsEmpty := provider_MapStringToMapTypeWithNullAsEmpty;
  provider.StringArrayToListWithNullAsEmpty := provider_StringArrayToListWithNullAsEmpty;
  provider.StringToStringType := provider_StringToStringType;
|}.

#[global] Instance spec_helpers : common.Helpers := {|
  common.IsStringAttributeEmpty := IsStringAttributeEmpty;
  common.IsGreaterThanOrEqual := IsGreaterThanOrEqual;
  common.OptionalList := OptionalList;
|}.

End helpers.

(** ** The messages of [ValidateDefaultIngress] *)

Module messages.

Definition unsupportedVersion (version : string) : error :=
  "version '" +:+ version +:+ "' is not supported with default ingress, "
    +:+ "minimum supported version is " +:+ defaultingress.lowestDefaultIngressVer.

Definition cantBeSetOnCreation : error :=
  "default_ingress params: cluster_routes_hostname and cluster_routes_tls_secret_ref can't be set on cluster creation".

Definition mustBeSetTogether : error :=
  "default_ingress params: cluster_routes_hostname and cluster_routes_tls_secret_ref must be set together".

End messages.

(** ** Sample values *)

Module samples.
Import basetypes.



(** A remote side with one default ingress, and one that answers every
    request with an error. *)
Definition oneDefaultIngress : cmv1.Ingress :=
  cmv1.mkIngress (Some "i1") (Some true) (Some ∅) None (Some "WildcardsDisallowed")
    (Some "Strict") None None.

Definition clientWith (items : list cmv1.Ingress) : cmv1.ClustersClient :=
  cmv1.mkClustersClient (fun _ => inl items) (fun _ _ body => inl body).

Definition failingClient : cmv1.ClustersClient :=
  cmv1.mkClustersClient (fun _ => inr "unreachable") (fun _ _ _ => inr "unreachable").

(** A typed null for every field, and a few states built from it. *)
Definition nullIngress : defaultingress.DefaultIngress :=
  defaultingress.mkDefaultIngress (NewMapNull StringType) (NewListNull StringType)
    NewStringNull NewStringNull NewStringNull NewStringNull NewStringNull.

Definition storedDisallowed : defaultingress.DefaultIngress :=
  defaultingress.set_Id (NewStringValue "i1")
    (defaultingress.set_WildcardPolicy (NewStringValue "WildcardsDisallowed") nullIngress).

Definition declaredAllowed : defaultingress.DefaultIngress :=
  defaultingress.set_Id (NewStringValue "i1")
    (defaultingress.set_WildcardPolicy (NewStringValue "WildcardsAllowed") nullIngress).

Definition declaredHostnameAtCreation : defaultingress.DefaultIngress :=
  defaultingress.set_ClusterRoutesHostname (NewStringValue "h.example.com") nullIngress.

Definition declaredAllowedNoId : defaultingress.DefaultIngress :=
  defaultingress.set_WildcardPolicy (NewStringValue "WildcardsAllowed") nullIngress.

Definition storedWithSelectors : defaultingress.DefaultIngress :=
  defaultingress.set_RouteSelectors
    (mkMapValue (Some {[ "app" := VString (NewStringValue "web") ]}) (Some StringType)
       valueStateKnown)
    (defaultingress.set_ExcludedNamespaces
       (mkListValue (Some [VString (NewStringValue "kube-system")]) (Some StringType)
          valueStateKnown)
       storedDisallowed).

(** A remote default ingress on which only the identifier is present. *)
Definition bareDefaultIngress : cmv1.Ingress :=
  cmv1.mkIngress (Some "i1") (Some true) None None None None None None.

(** A declared intent whose route selectors have a null element. *)
Definition declaredNullSelector : defaultingress.DefaultIngress :=
  defaultingress.set_RouteSelectors
    (mkMapValue (Some {[ "app" := VString NewStringNull ]}) (Some StringType)
       valueStateKnown)
    declaredAllowed.

(** An ingress that is not the default one, and a second default one. *)
Definition otherIngress : cmv1.Ingress :=
  cmv1.mkIngress (Some "i0") (Some false) None None None None None None.

Definition secondDefaultIngress : cmv1.Ingress :=
  cmv1.mkIngress (Some "i2") (Some true) None None (Some "WildcardsAllowed") None None None.

(** A group-membership resource, a remote side that answers every request
    on users, and a request for the user "u1" of group "admins". *)
Definition sampleResource : groupmembership.GroupMembershipResource :=
  groupmembership.mkGroupMembershipResource failingClient.

Definition sampleWorld : cmv1.UsersRemote :=
  cmv1.mkUsersRemote (fun _ => None) (fun _ _ object => inl object)
    (fun _ _ user => inl (cmv1.mkUser (Some user))) (fun _ _ _ => None).

Definition sampleRequest : groupmembership.Request :=
  groupmembership.mkRequest
    (groupmembership.mkGroupMembershipState (NewStringValue "c1")
       (NewStringValue "admins") (NewStringValue "u1") (NewStringValue "u1"), []).

Definition sampleClusterState : provider.ClusterRosaClassicState :=
  provider.mkClusterRosaClassicState (provider.mkString false false "c1")
    (provider.mkString false false "4.13.0")
    (Some (provider.mkDefaultIngress
             (provider.mkMap false true None (Some StringType))
             (provider.mkList false true None (Some StringType))
             (provider.mkString false false "WildcardsDisallowed")
             (provider.mkString false false "Strict")
             (provider.mkString false false "i1")
             (provider.mkString false true "")
             (provider.mkString false true ""))).

Definition sampleResponse : groupmembership.UpdateResponse :=
  groupmembership.mkUpdateResponse
    (Some (groupmembership.mkGroupMembershipState (NewStringValue "c1")
             (NewStringValue "dedicated-admins") (NewStringValue "u1") (NewStringValue "u1")))
    [].

End samples.

(** * Properties *)

Import basetypes.

Example version_below : helpers.IsGreaterThanOrEqual "4.13.9" "4.14.0-0" = (false, None).
Proof. reflexivity. Qed.
Example version_at : helpers.IsGreaterThanOrEqual "4.14.0" "4.14.0-0" = (true, None).
Proof. reflexivity. Qed.
Example version_rc : helpers.IsGreaterThanOrEqual "4.14.0-rc.1" "4.14.0-0" = (true, None).
Proof. reflexivity. Qed.
Example version_bad : snd (helpers.IsGreaterThanOrEqual "latest" "4.14.0-0") <> None.
Proof. discriminate. Qed.

(** ** Diagnostics *)

Lemma HasError_Errors (diags : diag.Diagnostics) :
  diag.HasError diags = true ↔ diag.Errors diags ≠ [].
Proof.
  unfold diag.HasError, diag.Errors.
  induction diags as [|d diags IH]; simpl.
  - split; [discriminate | congruence].
  - destruct (diag.isError d); simpl; [split; [discriminate | reflexivity] | exact IH].
Qed.

Lemma index0_Errors (diags : diag.Diagnostics) :
  diag.HasError diags = true → ∃ e, index0 (diag.Errors diags) = Done e ∧ e ∈ diags.
Proof.
  intros H. apply HasError_Errors in H.
  destruct (diag.Errors diags) as [|e es] eqn:E; [congruence|].
  exists e. split; [reflexivity|].
  assert (He : e ∈ diag.Errors diags) by (rewrite E; left).
  unfold diag.Errors in He. apply list_elem_of_In, filter_In in He.
  apply list_elem_of_In. tauto.
Qed.

Lemma elem_of_Append (diags : diag.Diagnostics) (d : diag.Diagnostic) :
  d ∈ diag.Append diags d.
Proof.
  unfold diag.Append. case_bool_decide; [assumption|].
  apply elem_of_app. right. left.
Qed.

Lemma omap_nil_Forall {A B : Type} (f : A → option B) (l : list A) :
  Forall (fun x => f x = None) l → omap f l = [].
Proof.
  induction 1 as [|x l Hx _ IH]; [reflexivity|].
  cbn. rewrite Hx. exact IH.
Qed.

(** ** Conversions from the tool representation *)

Lemma OptionalMap_null_or_unknown (m : MapValue) :
  Map_IsNull m || Map_IsUnknown m = true → common.OptionalMap m = Done (None, None).
Proof. intros H. unfold common.OptionalMap. rewrite H. reflexivity. Qed.

Lemma StringListToArray_null_or_unknown (l : ListValue) :
  List_IsNull l || List_IsUnknown l = true → common.StringListToArray l = Done (None, None).
Proof. intros H. unfold common.StringListToArray. rewrite H. reflexivity. Qed.

Lemma known_not_null_or_unknown (st : valueState) :
  st = valueStateKnown →
  bool_decide (st = valueStateNull) || bool_decide (st = valueStateUnknown) = false.
Proof. intros ->. reflexivity. Qed.

Lemma OptionalMap_known_strings (m : MapValue) (strings : gmap string string) :
  m_state m = valueStateKnown →
  Map_Elements m = (fun v => VString (NewStringValue v)) <$> strings →
  common.OptionalMap m = Done (Some strings, None).
Proof.
  intros Hst Hel. unfold common.OptionalMap, Map_IsNull, Map_IsUnknown.
  rewrite (known_not_null_or_unknown _ Hst).
  unfold Map_ElementsAs. rewrite Hst, Hel.
  assert (Hd : omap (fun kv : string * Value => asDiagnostic kv.2)
                 (map_to_list ((fun v => VString (NewStringValue v)) <$> strings)) = []).
  { apply omap_nil_Forall, Forall_forall. intros [k v] Hin.
    apply elem_of_map_to_list in Hin.
    rewrite lookup_fmap in Hin. destruct (strings !! k); simplify_eq/=. reflexivity. }
  rewrite Hd. simpl. do 3 f_equal.
  apply map_eq. intros k. rewrite lookup_omap, lookup_fmap.
  destruct (strings !! k); reflexivity.
Qed.

Lemma reflectList_strings (l : list string) :
  reflectList ((fun v => VString (NewStringValue v)) <$> l) = inl l.
Proof.
  induction l as [|x l IH]; [reflexivity|].
  rewrite fmap_cons. cbn [reflectList intoString s_state NewStringValue s_value].
  rewrite IH. reflexivity.
Qed.

Lemma StringListToArray_known_strings (lv : ListValue) (strings : list string) :
  l_state lv = valueStateKnown →
  List_Elements lv = (fun v => VString (NewStringValue v)) <$> strings →
  common.StringListToArray lv = Done (Some strings, None).
Proof.
  intros Hst Hel. unfold common.StringListToArray, List_IsNull, List_IsUnknown.
  rewrite (known_not_null_or_unknown _ Hst).
  unfold List_ElementsAs. rewrite Hst, Hel, reflectList_strings. reflexivity.
Qed.

(** C7. A map or list value that is null or unknown converts to the nil
    native collection with no error, and a known value without elements
    converts to the empty, non-nil native collection with no error. *)
Theorem null_converts_to_nil_and_empty_to_empty (m : MapValue) (l : ListValue) :
  (Map_IsNull m || Map_IsUnknown m = true → common.OptionalMap m = Done (None, None))
  ∧ (List_IsNull l || List_IsUnknown l = true →
     common.StringListToArray l = Done (None, None))
  ∧ (m_state m = valueStateKnown → Map_Elements m = ∅ →
     common.OptionalMap m = Done (Some ∅, None))
  ∧ (l_state l = valueStateKnown → List_Elements l = [] →
     common.StringListToArray l = Done (Some [], None)).
Proof.
  split; [apply OptionalMap_null_or_unknown|].
  split; [apply StringListToArray_null_or_unknown|].
  split.
  - intros Hst Hel. apply OptionalMap_known_strings; [assumption|].
    rewrite Hel, fmap_empty. reflexivity.
  - intros Hst Hel. apply StringListToArray_known_strings; [assumption|].
    rewrite Hel. reflexivity.
Qed.

Lemma null_converts_to_nil_and_empty_to_empty_witness :
  common.OptionalMap (NewMapNull StringType) = Done (None, None)
  ∧ common.StringListToArray (NewListUnknown StringType) = Done (None, None)
  ∧ common.OptionalMap (mkMapValue (Some ∅) (Some StringType) valueStateKnown)
    = Done (Some ∅, None)
  ∧ common.StringListToArray (mkListValue (Some []) (Some StringType) valueStateKnown)
    = Done (Some [], None).
Proof.
  split; [|split; [|split]].
  - apply (null_converts_to_nil_and_empty_to_empty
             (NewMapNull StringType) (NewListNull StringType)). reflexivity.
  - apply (null_converts_to_nil_and_empty_to_empty
             (NewMapNull StringType) (NewListUnknown StringType)). reflexivity.
  - apply (null_converts_to_nil_and_empty_to_empty
             (mkMapValue (Some ∅) (Some StringType) valueStateKnown)
             (NewListNull StringType)); reflexivity.
  - apply (null_converts_to_nil_and_empty_to_empty
             (NewMapNull StringType)
             (mkListValue (Some []) (Some StringType) valueStateKnown)); reflexivity.
Defined.

(** ** Conversions to the tool representation *)

Lemma foldl_snoc_fmap {A B : Type} (f : A → B) (l : list A) (acc : list B) :
  foldl (fun elements e => elements ++ [f e]) acc l = acc ++ (f <$> l).
Proof.
  revert acc. induction l as [|x l IH]; intros acc; simpl.
  - rewrite app_nil_r. reflexivity.
  - rewrite IH, <- app_assoc. reflexivity.
Qed.

Lemma foldl_no_invalid {A : Type} (t : Type_) (ty : A → Type_)
    (report : A → diag.Diagnostic) (l : list A) (acc : diag.Diagnostics) :
  Forall (fun x => ty x = t) l →
  foldl (fun diags x =>
           if bool_decide (t = ty x) then diags else diag.Append diags (report x))
        acc l = acc.
Proof.
  induction 1 as [|x l Hx _ IH]; [reflexivity|].
  simpl. rewrite bool_decide_eq_true_2 by (symmetry; exact Hx). exact IH.
Qed.

Lemma NewListValue_strings (strings : list string) :
  NewListValue StringType ((fun v => VString (NewStringValue v)) <$> strings)
  = (mkListValue (Some ((fun v => VString (NewStringValue v)) <$> strings))
       (Some StringType) valueStateKnown, []).
Proof.
  unfold NewListValue.
  rewrite (foldl_no_invalid StringType Value_Type); [reflexivity|].
  apply Forall_fmap, Forall_forall. intros x _. reflexivity.
Qed.

Lemma NewMapValue_strings (strings : gmap string string) :
  NewMapValue StringType ((fun v => VString (NewStringValue v)) <$> strings)
  = (mkMapValue (Some ((fun v => VString (NewStringValue v)) <$> strings))
       (Some StringType) valueStateKnown, []).
Proof.
  unfold NewMapValue.
  rewrite (foldl_no_invalid StringType (fun kv : string * Value => Value_Type kv.2));
    [reflexivity|].
  apply Forall_forall. intros [k v] Hin. apply elem_of_map_to_list in Hin.
  rewrite lookup_fmap in Hin. destruct (strings !! k); simplify_eq/=. reflexivity.
Qed.

Lemma StringArrayToList_NewListValue (stringList : option (list string)) :
  common.StringArrayToList NewListValue stringList
  = Done (mkListValue
            (Some ((fun v => VString (NewStringValue v)) <$> default [] stringList))
            (Some StringType) valueStateKnown, None).
Proof.
  unfold common.StringArrayToList.
  rewrite foldl_snoc_fmap, app_nil_l, NewListValue_strings. reflexivity.
Qed.

Lemma ConvertStringMapToMapType_NewMapValue (stringMap : option (gmap string string)) :
  common.ConvertStringMapToMapType NewMapValue stringMap
  = Done (mkMapValue
            (Some ((fun v => VString (NewStringValue v)) <$> default ∅ stringMap))
            (Some StringType) valueStateKnown, None).
Proof.
  unfold common.ConvertStringMapToMapType.
  rewrite NewMapValue_strings. reflexivity.
Qed.

(** C8. A non-nil native list converted to the tool representation and back
    is the same list, in the same order; a non-nil native map converted to
    the tool representation and back is the same map. *)
Theorem native_round_trip (strings : list string) (stringMap : gmap string string) :
  (∃ listValue,
      common.StringArrayToList NewListValue (Some strings) = Done (listValue, None)
      ∧ common.StringListToArray listValue = Done (Some strings, None))
  ∧ (∃ mapValue,
      common.ConvertStringMapToMapType NewMapValue (Some stringMap) = Done (mapValue, None)
      ∧ common.OptionalMap mapValue = Done (Some stringMap, None)).
Proof.
  split.
  - eexists. split; [apply StringArrayToList_NewListValue|].
    apply StringListToArray_known_strings; reflexivity.
  - eexists. split; [apply ConvertStringMapToMapType_NewMapValue|].
    apply OptionalMap_known_strings; reflexivity.
Qed.

Example round_trip_list :
  (r ← common.StringArrayToList NewListValue (Some ["b"; "a"; "b"]);
   common.StringListToArray r.1) = Done (Some ["b"; "a"; "b"], None).
Proof. reflexivity. Qed.

Example round_trip_nil_list :
  (r ← common.StringArrayToList NewListValue None;
   common.StringListToArray r.1) = Done (Some [], None).
Proof. reflexivity. Qed.

(** ** Conversion failures *)

(** The conversions from the tool representation return the error they
    build, with the detail of the first error diagnostic. *)
Lemma OptionalMap_failure (m : MapValue) :
  Map_IsNull m || Map_IsUnknown m = false →
  diag.HasError (Map_ElementsAs m (Some ∅)).2 = true →
  ∃ e, e ∈ (Map_ElementsAs m (Some ∅)).2
       ∧ common.OptionalMap m
         = Done (None, Some (Errorf "error converting to map object " (diag.Detail e))).
Proof.
  intros Hk Herr. unfold common.OptionalMap. rewrite Hk.
  destruct (Map_ElementsAs m (Some ∅)) as [result d]. simpl in *. rewrite Herr.
  destruct (index0_Errors d Herr) as (e & -> & Hin).
  exists e. split; [assumption | reflexivity].
Qed.

Lemma StringListToArray_failure (l : ListValue) :
  List_IsNull l || List_IsUnknown l = false →
  let target := Some (replicate (length (List_Elements l)) "") in
  diag.HasError (List_ElementsAs l target).2 = true →
  ∃ e, e ∈ (List_ElementsAs l target).2
       ∧ common.StringListToArray l
         = Done (None, Some (Errorf "error converting to map object " (diag.Detail e))).
Proof.
  intros Hk target Herr. unfold common.StringListToArray. rewrite Hk. fold target.
  destruct (List_ElementsAs l target) as [result d]. simpl in *. rewrite Herr.
  destruct (index0_Errors d Herr) as (e & -> & Hin).
  exists e. split; [assumption | reflexivity].
Qed.

Example OptionalMap_element_of_another_type :
  common.OptionalMap
    (mkMapValue (Some {[ "k" := VInt64 valueStateKnown 1 ]}) (Some StringType) valueStateKnown)
  = Done (None, Some "error converting to map object cannot reflect basetypes.Int64Type into a string").
Proof. vm_compute. reflexivity. Qed.



(** With the framework's own constructors the diagnostics of these two
    conversions have no error: every element is a string value. *)
Lemma to_framework_never_fails (stringMap : option (gmap string string))
    (stringList : option (list string)) :
  (∃ mapValue, common.ConvertStringMapToMapType NewMapValue stringMap = Done (mapValue, None)
               ∧ m_state mapValue = valueStateKnown)
  ∧ (∃ listValue, common.StringArrayToList NewListValue stringList = Done (listValue, None)
                  ∧ l_state listValue = valueStateKnown).
Proof.
  split; eexists; (split; [first [apply ConvertStringMapToMapType_NewMapValue
                                 | apply StringArrayToList_NewListValue] | reflexivity]).
Qed.

(** None of the four conversions panics. *)
Lemma conversions_do_not_panic
    (types_MapValue : Type_ → gmap string Value → MapValue * diag.Diagnostics)
    (types_ListValue : Type_ → list Value → ListValue * diag.Diagnostics)
    (m : MapValue) (l : ListValue)
    (stringMap : option (gmap string string)) (stringList : option (list string)) :
  common.OptionalMap m ≠ Panic
  ∧ common.StringListToArray l ≠ Panic
  ∧ common.ConvertStringMapToMapType types_MapValue stringMap ≠ Panic
  ∧ common.StringArrayToList types_ListValue stringList ≠ Panic.
Proof.
  repeat split.
  - unfold common.OptionalMap. destruct (_ || _); [discriminate|].
    destruct (Map_ElementsAs m (Some ∅)) as [r d].
    destruct (diag.HasError d) eqn:E; [|discriminate].
    destruct (index0_Errors d E) as (e & -> & _). discriminate.
  - unfold common.StringListToArray. destruct (_ || _); [discriminate|].
    destruct (List_ElementsAs l _) as [r d].
    destruct (diag.HasError d) eqn:E; [|discriminate].
    destruct (index0_Errors d E) as (e & -> & _). discriminate.
  - unfold common.ConvertStringMapToMapType.
    destruct (types_MapValue _ _) as [v d].
    destruct (diag.HasError d) eqn:E.
    + destruct (index0_Errors d E) as (e & -> & _). case_bool_decide; discriminate.
    + rewrite andb_false_r. discriminate.
  - unfold common.StringArrayToList.
    destruct (types_ListValue _ _) as [v d].
    destruct (diag.HasError d) eqn:E.
    + destruct (index0_Errors d E) as (e & -> & _). case_bool_decide; discriminate.
    + rewrite andb_false_r. discriminate.
Qed.

(** ** Group membership *)

(** C10. [Update] of the group-membership resource reports the error
    "Can't update group membership" / "Update is currently not supported.",
    sends no request and leaves the state of the response as it was. *)
Theorem group_membership_update_not_supported
    (g : groupmembership.GroupMembershipResource)
    (req : groupmembership.UpdateRequest) (resp : groupmembership.UpdateResponse) :
  ∃ resp',
    groupmembership.Update g req resp = ([], Done resp')
    ∧ groupmembership.State resp' = groupmembership.State resp
    ∧ diag.NewErrorDiagnostic "Can't update group membership"
        "Update is currently not supported." ∈ groupmembership.Diagnostics resp'
    ∧ diag.HasError (groupmembership.Diagnostics resp') = true
    ∧ (∀ d, d ∈ groupmembership.Diagnostics resp → d ∈ groupmembership.Diagnostics resp').
Proof.
  eexists. split; [reflexivity|]. simpl. split; [reflexivity|].
  assert (Hin : diag.NewErrorDiagnostic "Can't update group membership"
                  "Update is currently not supported."
                ∈ diag.AddError (groupmembership.Diagnostics resp)
                    "Can't update group membership" "Update is currently not supported.")
    by apply elem_of_Append.
  split; [exact Hin|]. split.
  - unfold diag.HasError. apply existsb_exists.
    eexists. split; [apply list_elem_of_In; exact Hin | reflexivity].
  - intros d Hd. unfold diag.AddError, diag.Append.
    case_bool_decide; [assumption|]. apply elem_of_app. left. assumption.
Qed.

Example group_membership_update_sample :
  groupmembership.Update (groupmembership.mkGroupMembershipResource samples.failingClient)
    (groupmembership.mkUpdateRequest None (groupmembership.State samples.sampleResponse))
    samples.sampleResponse
  = ([], Done (groupmembership.mkUpdateResponse
                 (groupmembership.State samples.sampleResponse)
                 [diag.NewErrorDiagnostic "Can't update group membership"
                    "Update is currently not supported."])).
Proof. reflexivity. Qed.

(** ** Deep equality tells null from empty *)

Example DeepEqual_null_vs_empty :
  DeepEqual (NewMapNull StringType) (mkMapValue (Some ∅) (Some StringType) valueStateKnown)
  = false
  ∧ DeepEqual (NewStringNull) (NewStringValue "") = false
  ∧ DeepEqual (Some samples.nullIngress) None = false.
Proof. repeat split. Qed.

(** ** The reconciler *)

Section reconciler.
Context `{!common.Helpers}.

Lemma ValidateDefaultIngress_nil (version : string) :
  defaultingress.ValidateDefaultIngress None version = None.
Proof. reflexivity. Qed.

Lemma ValidateDefaultIngress_version_error (plan : defaultingress.DefaultIngress)
    (version : string) (e : error) (greater : bool) :
  common.IsGreaterThanOrEqual version defaultingress.lowestDefaultIngressVer
  = (greater, Some e) →
  defaultingress.ValidateDefaultIngress (Some plan) version
  = Some (Errorf ("version '" +:+ version +:+ "' is not supported: ") e).
Proof. intros Hge. unfold defaultingress.ValidateDefaultIngress. rewrite Hge. reflexivity. Qed.

Lemma ValidateDefaultIngress_below (plan : defaultingress.DefaultIngress)
    (version : string) :
  common.IsGreaterThanOrEqual version defaultingress.lowestDefaultIngressVer
  = (false, None) →
  defaultingress.ValidateDefaultIngress (Some plan) version
  = Some ("version '" +:+ version +:+ "' is not supported with default ingress, "
            +:+ "minimum supported version is " +:+ defaultingress.lowestDefaultIngressVer).
Proof. intros Hge. unfold defaultingress.ValidateDefaultIngress. rewrite Hge. reflexivity. Qed.

Lemma UpdateIngress_invalid (state plan : option defaultingress.DefaultIngress)
    (clusterId version : string) (clusterCollection : cmv1.ClustersClient) (e : error) :
  state ≠ plan →
  defaultingress.ValidateDefaultIngress plan version = Some e →
  defaultingress.UpdateIngress state plan clusterId version clusterCollection
  = ([], Done (Some e)).
Proof.
  intros Hne Hv. unfold defaultingress.UpdateIngress, DeepEqual.
  rewrite bool_decide_eq_false_2 by exact Hne. simpl. rewrite Hv. reflexivity.
Qed.
End reconciler.

(** C1. When the stored state and the declared intent of the default ingress
    are deeply equal, the update reconciler sends no request (no list, no
    update) and returns nil; this holds for [UpdateIngress] and for
    [updateIngress] on the cluster state. *)
Theorem update_of_equal_state_sends_nothing `{!common.Helpers} `{!provider.Helpers}
    (state plan : option defaultingress.DefaultIngress)
    (clusterId version : string)
    (clusterState clusterPlan : provider.ClusterRosaClassicState)
    (clusterCollection : cmv1.ClustersClient) :
  (DeepEqual state plan = true →
   defaultingress.UpdateIngress state plan clusterId version clusterCollection
   = ([], Done None))
  ∧ (DeepEqual (provider.DefaultIngress_ clusterState) (provider.DefaultIngress_ clusterPlan)
     = true →
     provider.updateIngress clusterState clusterPlan clusterCollection = ([], Done None)).
Proof.
  split; intros Heq.
  - unfold defaultingress.UpdateIngress. rewrite Heq. reflexivity.
  - unfold provider.updateIngress. rewrite Heq. reflexivity.
Qed.

Lemma update_of_equal_state_sends_nothing_witness :
  defaultingress.UpdateIngress (Some samples.storedDisallowed)
    (Some samples.storedDisallowed) "c1" "4.13.0" samples.failingClient
  = ([], Done None)
  ∧ provider.updateIngress samples.sampleClusterState samples.sampleClusterState
      samples.failingClient
    = ([], Done None).
Proof.
  split.
  - apply (update_of_equal_state_sends_nothing (Some samples.storedDisallowed)
             (Some samples.storedDisallowed) "c1" "4.13.0"
             samples.sampleClusterState samples.sampleClusterState samples.failingClient).
    reflexivity.
  - apply (update_of_equal_state_sends_nothing (Some samples.storedDisallowed)
             (Some samples.storedDisallowed) "c1" "4.13.0"
             samples.sampleClusterState samples.sampleClusterState samples.failingClient).
    reflexivity.
Defined.

(** A nil stored state and a nil declared intent are equal as well. *)
Example update_of_nil_state :
  defaultingress.UpdateIngress None None "c1" "4.13.0" samples.failingClient
  = ([], Done None).
Proof. reflexivity. Qed.

(** An intent that differs is not skipped: here the list request fails and
    its error is returned. *)
Example update_of_different_state :
  defaultingress.UpdateIngress None (Some samples.declaredAllowedNoId) "c1" "4.14.0"
    samples.failingClient
  = ([cmv1.IngressesList "c1"], Done (Some "unreachable")).
Proof. reflexivity. Qed.

(** ** The validation gate *)

Lemma unsupportedVersion_is_not_a_configuration_error (version : string) :
  messages.unsupportedVersion version ≠ messages.cantBeSetOnCreation
  ∧ messages.unsupportedVersion version ≠ messages.mustBeSetTogether.
Proof. split; discriminate. Qed.

Section gate.
Context `{!common.Helpers}.

Lemma ValidateDefaultIngress_creation (plan : defaultingress.DefaultIngress)
    (version : string) :
  common.IsGreaterThanOrEqual version defaultingress.lowestDefaultIngressVer
  = (true, None) →
  common.IsStringAttributeEmpty (defaultingress.Id plan) = true →
  common.IsStringAttributeEmpty (defaultingress.ClusterRoutesHostname plan) = false
  ∨ common.IsStringAttributeEmpty (defaultingress.ClusterRoutesTlsSecretRef plan) = false →
  defaultingress.ValidateDefaultIngress (Some plan) version
  = Some messages.cantBeSetOnCreation.
Proof.
  intros Hge Hid Hset. unfold defaultingress.ValidateDefaultIngress.
  rewrite Hge, Hid. simpl. destruct Hset as [-> | ->]; simpl.
  - reflexivity.
  - rewrite orb_true_r. reflexivity.
Qed.

Lemma ValidateDefaultIngress_together (plan : defaultingress.DefaultIngress)
    (version : string) :
  common.IsGreaterThanOrEqual version defaultingress.lowestDefaultIngressVer
  = (true, None) →
  common.IsStringAttributeEmpty (defaultingress.ClusterRoutesHostname plan)
  ≠ common.IsStringAttributeEmpty (defaultingress.ClusterRoutesTlsSecretRef plan) →
  defaultingress.ValidateDefaultIngress (Some plan) version
  = Some messages.cantBeSetOnCreation
  ∨ defaultingress.ValidateDefaultIngress (Some plan) version
    = Some messages.mustBeSetTogether.
Proof.
  intros Hge Hne. unfold defaultingress.ValidateDefaultIngress. rewrite Hge. simpl.
  destruct (common.IsStringAttributeEmpty (defaultingress.Id plan));
    destruct (common.IsStringAttributeEmpty (defaultingress.ClusterRoutesHostname plan));
    destruct (common.IsStringAttributeEmpty (defaultingress.ClusterRoutesTlsSecretRef plan));
    simpl; try congruence; auto.
Qed.

(** A declared intent that the gate lets through. *)
Lemma ValidateDefaultIngress_passes (plan : defaultingress.DefaultIngress)
    (version : string) :
  defaultingress.ValidateDefaultIngress (Some plan) version = None →
  common.IsGreaterThanOrEqual version defaultingress.lowestDefaultIngressVer
  = (true, None)
  ∧ common.IsStringAttributeEmpty (defaultingress.ClusterRoutesHostname plan)
    = common.IsStringAttributeEmpty (defaultingress.ClusterRoutesTlsSecretRef plan)
  ∧ (common.IsStringAttributeEmpty (defaultingress.Id plan) = true →
     common.IsStringAttributeEmpty (defaultingress.ClusterRoutesHostname plan) = true).
Proof.
  unfold defaultingress.ValidateDefaultIngress.
  destruct (common.IsGreaterThanOrEqual _ _) as [[|] [e|]]; simpl; try discriminate.
  destruct (common.IsStringAttributeEmpty (defaultingress.Id plan));
    destruct (common.IsStringAttributeEmpty (defaultingress.ClusterRoutesHostname plan));
    destruct (common.IsStringAttributeEmpty (defaultingress.ClusterRoutesTlsSecretRef plan));
    simpl; try discriminate; auto.
Qed.
End gate.

(** C4. For a version below the minimum supported one and a declared intent
    that breaks the both-or-neither rule of hostname and TLS secret
    reference, [ValidateDefaultIngress] returns the version error, which is
    neither of the two configuration errors; at a supported version the same
    intent is refused with a configuration error. *)
Theorem version_failure_is_reported_first `{!common.Helpers}
    (plan : defaultingress.DefaultIngress) (version : string) :
  common.IsGreaterThanOrEqual version defaultingress.lowestDefaultIngressVer
  = (false, None) →
  common.IsStringAttributeEmpty (defaultingress.ClusterRoutesHostname plan)
  ≠ common.IsStringAttributeEmpty (defaultingress.ClusterRoutesTlsSecretRef plan) →
  defaultingress.ValidateDefaultIngress (Some plan) version
  = Some (messages.unsupportedVersion version)
  ∧ messages.unsupportedVersion version ≠ messages.cantBeSetOnCreation
  ∧ messages.unsupportedVersion version ≠ messages.mustBeSetTogether
  ∧ (∀ supported : string,
       common.IsGreaterThanOrEqual supported defaultingress.lowestDefaultIngressVer
       = (true, None) →
       defaultingress.ValidateDefaultIngress (Some plan) supported
       = Some messages.cantBeSetOnCreation
       ∨ defaultingress.ValidateDefaultIngress (Some plan) supported
         = Some messages.mustBeSetTogether).
Proof.
  intros Hbelow Hne. split; [apply ValidateDefaultIngress_below; exact Hbelow|].
  split; [apply unsupportedVersion_is_not_a_configuration_error|].
  split; [apply unsupportedVersion_is_not_a_configuration_error|].
  intros supported Hge. apply ValidateDefaultIngress_together; assumption.
Qed.

Lemma version_failure_is_reported_first_witness :
  defaultingress.ValidateDefaultIngress
    (Some (defaultingress.set_Id (NewStringValue "i1") samples.declaredHostnameAtCreation))
    "4.13.9"
  = Some "version '4.13.9' is not supported with default ingress, minimum supported version is 4.14.0-0".
Proof.
  apply (version_failure_is_reported_first
           (defaultingress.set_Id (NewStringValue "i1") samples.declaredHostnameAtCreation)
           "4.13.9").
  - reflexivity.
  - vm_compute. discriminate.
Defined.

(** C3, as stated, fails: for the declared intent with no identifier and the
    hostname "h.example.com", validation at version 4.13.9 returns the
    version error and not the creation error; and with a stored state equal
    to that intent the reconciler returns nil at a supported version. *)
Lemma creation_guard_counterexample :
  common.IsStringAttributeEmpty (defaultingress.Id samples.declaredHostnameAtCreation) = true
  ∧ common.IsStringAttributeEmpty
      (defaultingress.ClusterRoutesHostname samples.declaredHostnameAtCreation) = false
  ∧ defaultingress.ValidateDefaultIngress (Some samples.declaredHostnameAtCreation) "4.13.9"
    ≠ Some messages.cantBeSetOnCreation
  ∧ defaultingress.UpdateIngress (Some samples.declaredHostnameAtCreation)
      (Some samples.declaredHostnameAtCreation) "c1" "4.14.0" samples.failingClient
    = ([], Done None).
Proof. repeat split. vm_compute. discriminate. Qed.

(** C3, amended. For a declared intent whose identifier is empty and whose
    hostname or TLS secret reference is set, at a version that is at least
    the minimum supported one, [ValidateDefaultIngress] returns the error
    "can't be set on cluster creation"; and when the stored state is not
    deeply equal to that intent, [UpdateIngress] returns this error and sends
    no request. *)
Theorem creation_guard `{!common.Helpers}
    (plan : defaultingress.DefaultIngress) (version : string) :
  common.IsGreaterThanOrEqual version defaultingress.lowestDefaultIngressVer
  = (true, None) →
  common.IsStringAttributeEmpty (defaultingress.Id plan) = true →
  common.IsStringAttributeEmpty (defaultingress.ClusterRoutesHostname plan) = false
  ∨ common.IsStringAttributeEmpty (defaultingress.ClusterRoutesTlsSecretRef plan) = false →
  defaultingress.ValidateDefaultIngress (Some plan) version
  = Some messages.cantBeSetOnCreation
  ∧ (∀ (state : option defaultingress.DefaultIngress) (clusterId : string)
       (clusterCollection : cmv1.ClustersClient),
       DeepEqual state (Some plan) = false →
       defaultingress.UpdateIngress state (Some plan) clusterId version clusterCollection
       = ([], Done (Some messages.cantBeSetOnCreation))).
Proof.
  intros Hge Hid Hset.
  pose proof (ValidateDefaultIngress_creation plan version Hge Hid Hset) as Hv.
  split; [exact Hv|].
  intros state clusterId clusterCollection Hne.
  apply UpdateIngress_invalid; [|exact Hv].
  unfold DeepEqual in Hne. apply bool_decide_eq_false in Hne. exact Hne.
Qed.

Lemma creation_guard_witness :
  defaultingress.ValidateDefaultIngress (Some samples.declaredHostnameAtCreation) "4.14.0"
  = Some messages.cantBeSetOnCreation
  ∧ defaultingress.UpdateIngress None (Some samples.declaredHostnameAtCreation)
      "c1" "4.14.0" samples.failingClient
    = ([], Done (Some messages.cantBeSetOnCreation)).
Proof.
  assert (Hge : common.IsGreaterThanOrEqual "4.14.0" defaultingress.lowestDefaultIngressVer
                = (true, None)) by reflexivity.
  assert (Hid : common.IsStringAttributeEmpty
                  (defaultingress.Id samples.declaredHostnameAtCreation) = true)
    by reflexivity.
  assert (Hset : common.IsStringAttributeEmpty
                   (defaultingress.ClusterRoutesHostname samples.declaredHostnameAtCreation)
                 = false
                 ∨ common.IsStringAttributeEmpty
                     (defaultingress.ClusterRoutesTlsSecretRef
                        samples.declaredHostnameAtCreation) = false)
    by (left; reflexivity).
  split.
  - apply (creation_guard samples.declaredHostnameAtCreation "4.14.0" Hge Hid Hset).
  - apply (creation_guard samples.declaredHostnameAtCreation "4.14.0" Hge Hid Hset).
    reflexivity.
Defined.

(** ** The read path *)

(** What the loop body of [PopulateDefaultIngress] leaves in each field. *)
Lemma populateFromDefault_fields (state : option defaultingress.DefaultIngress)
    (ingress : cmv1.Ingress) :
  let before := default defaultingress.zeroDefaultIngress state in
  ∃ after,
    defaultingress.populateFromDefault state ingress = Done (Some after, None)
    ∧ defaultingress.Id after = NewStringValue (cmv1.ID ingress)
    ∧ defaultingress.RouteSelectors after
      = match cmv1.routeSelectors ingress with
        | Some m => mkMapValue (Some ((fun v => VString (NewStringValue v)) <$> m))
                      (Some StringType) valueStateKnown
        | None => defaultingress.RouteSelectors before
        end
    ∧ defaultingress.ExcludedNamespaces after
      = match cmv1.excludedNamespaces ingress with
        | Some l => mkListValue (Some ((fun v => VString (NewStringValue v)) <$> l))
                      (Some StringType) valueStateKnown
        | None => defaultingress.ExcludedNamespaces before
        end
    ∧ defaultingress.WildcardPolicy after
      = from_option NewStringValue NewStringNull (cmv1.routeWildcardPolicy ingress)
    ∧ defaultingress.NamespaceOwnershipPolicy after
      = from_option NewStringValue NewStringNull (cmv1.routeNamespaceOwnershipPolicy ingress)
    ∧ defaultingress.ClusterRoutesHostname after
      = from_option NewStringValue NewStringNull (cmv1.clusterRoutesHostname ingress)
    ∧ defaultingress.ClusterRoutesTlsSecretRef after
      = from_option NewStringValue NewStringNull (cmv1.clusterRoutesTlsSecretRef ingress).
Proof.
  intros before. unfold defaultingress.populateFromDefault.
  replace (match state with
           | Some s => s
           | None => defaultingress.zeroDefaultIngress
           end) with before by (destruct state; reflexivity).
  destruct ingress as [i d rs en wp nop host tls].
  unfold cmv1.GetRouteSelectors, cmv1.GetExcludedNamespaces; simpl.
  destruct rs as [rs|], en as [en|]; simpl;
    rewrite ?ConvertStringMapToMapType_NewMapValue, ?StringArrayToList_NewListValue; simpl;
    rewrite ?ConvertStringMapToMapType_NewMapValue, ?StringArrayToList_NewListValue; simpl;
    destruct wp, nop, host, tls; simpl; eexists; (split; [reflexivity|]);
    repeat split.
Qed.

Lemma populateLoop_returns (state : defaultingress.DefaultIngress)
    (items : list cmv1.Ingress) :
  ∃ after, defaultingress.populateLoop (Some state) items = Done (Some after, None).
Proof.
  induction items as [|ingress rest IH]; simpl.
  - eexists. reflexivity.
  - destruct (cmv1.Default ingress); [|exact IH].
    destruct (populateFromDefault_fields (Some state) ingress) as (after & -> & _).
    eexists. reflexivity.
Qed.

(** With no ingress marked default the state comes back as it went in. *)
Lemma populateLoop_no_default (state : option defaultingress.DefaultIngress)
    (items : list cmv1.Ingress) :
  Forall (fun ingress => cmv1.Default ingress = false) items →
  defaultingress.populateLoop state items = Done (state, None).
Proof.
  induction 1 as [|ingress rest Hd _ IH]; simpl; [reflexivity|].
  rewrite Hd. exact IH.
Qed.

(** [PopulateDefaultIngress] on a state that is there: one list request,
    then either the error of the request or the populated state. *)
Lemma PopulateDefaultIngress_some (state : defaultingress.DefaultIngress)
    (client : cmv1.IngressesClient) :
  (∃ e, cmv1.list_response (cmv1.connection client) (cmv1.cluster client) = inr e
        ∧ defaultingress.PopulateDefaultIngress (Some state) client
          = ([cmv1.IngressesList (cmv1.cluster client)], Done (None, Some e)))
  ∨ (∃ items after,
        cmv1.list_response (cmv1.connection client) (cmv1.cluster client) = inl items
        ∧ defaultingress.populateLoop (Some state) items = Done (Some after, None)
        ∧ defaultingress.PopulateDefaultIngress (Some state) client
          = ([cmv1.IngressesList (cmv1.cluster client)], Done (Some after, None))).
Proof.
  unfold defaultingress.PopulateDefaultIngress, List_Send.
  destruct client as [conn cl]. simpl.
  unfold mbind, remote_bind.
  destruct (cmv1.list_response conn cl) as [items|e] eqn:E.
  - right. destruct (populateLoop_returns state items) as [after Hafter].
    exists items, after. split; [reflexivity|]. split; [exact Hafter|].
    unfold local. rewrite Hafter. reflexivity.
  - left. exists e. split; reflexivity.
Qed.

(** ** The update request *)

Section update_request.
Context `{!common.Helpers}.

Lemma getDefaultIngressBuilder_built (plan : defaultingress.DefaultIngress)
    (b : cmv1.IngressBuilder) :
  defaultingress.getDefaultIngressBuilder (Some plan) = Done (Some b) →
  ∃ routeSelectors excludedNamespaces,
    common.OptionalMap (defaultingress.RouteSelectors plan) = Done (routeSelectors, None)
    ∧ common.OptionalList (defaultingress.ExcludedNamespaces plan)
      = Done (excludedNamespaces, None)
    ∧ cmv1.built b
      = cmv1.mkIngress None None
          (Some (default ∅ routeSelectors)) (Some (default [] excludedNamespaces))
          (if common.IsStringAttributeEmpty (defaultingress.WildcardPolicy plan)
           then None else Some (ValueString (defaultingress.WildcardPolicy plan)))
          (if common.IsStringAttributeEmpty (defaultingress.NamespaceOwnershipPolicy plan)
           then None
           else Some (ValueString (defaultingress.NamespaceOwnershipPolicy plan)))
          None None.
Proof.
  unfold defaultingress.getDefaultIngressBuilder. simpl.
  destruct (common.OptionalMap _) as [[rs [e|]]|]; simpl; try discriminate.
  destruct (common.OptionalList _) as [[ens [e|]]|]; simpl; try discriminate.
  intros Hb. exists rs, ens. split; [reflexivity|]. split; [reflexivity|].
  destruct rs, ens;
    destruct (common.IsStringAttributeEmpty (defaultingress.WildcardPolicy plan));
    destruct (common.IsStringAttributeEmpty (defaultingress.NamespaceOwnershipPolicy plan));
    simpl in Hb; injection Hb as <-; reflexivity.
Qed.

Lemma getDefaultIngressBuilder_nil_plan :
  defaultingress.getDefaultIngressBuilder None = Panic.
Proof. reflexivity. Qed.
End update_request.

Section update_trace.
Context `{!common.Helpers}.

(** The request body built from the declared intent [pl], with the stored
    (or freshly read) state [st] deciding on hostname and TLS secret
    reference. *)
Local Abbreviation updateBody st pl routeSelectors excludedNamespaces :=
  (cmv1.mkIngress None None
     (Some (default ∅ routeSelectors)) (Some (default [] excludedNamespaces))
     (if common.IsStringAttributeEmpty (defaultingress.WildcardPolicy pl)
      then None else Some (ValueString (defaultingress.WildcardPolicy pl)))
     (if common.IsStringAttributeEmpty (defaultingress.NamespaceOwnershipPolicy pl)
      then None else Some (ValueString (defaultingress.NamespaceOwnershipPolicy pl)))
     (if DeepEqual (defaultingress.ClusterRoutesHostname st)
                   (defaultingress.ClusterRoutesHostname pl)
      then None else Some (ValueString (defaultingress.ClusterRoutesHostname pl)))
     (if DeepEqual (defaultingress.ClusterRoutesTlsSecretRef st)
                   (defaultingress.ClusterRoutesTlsSecretRef pl)
      then None else Some (ValueString (defaultingress.ClusterRoutesTlsSecretRef pl)))).

(** Whether [UpdateIngress] reads the ingress list first. *)
Local Abbreviation identifierUnknown state :=
  (match state with
   | None => true
   | Some st => common.IsStringAttributeEmpty (defaultingress.Id st)
   end).

(** Every run of [UpdateIngress] that sends an update request. *)
Lemma UpdateIngress_update_sent (state plan : option defaultingress.DefaultIngress)
    (clusterId version : string) (clusterCollection : cmv1.ClustersClient)
    (c i : string) (body : cmv1.Ingress) :
  cmv1.IngressUpdate c i body
  ∈ (defaultingress.UpdateIngress state plan clusterId version clusterCollection).1 →
  ∃ pl st routeSelectors excludedNamespaces,
    plan = Some pl
    ∧ state ≠ plan
    ∧ defaultingress.ValidateDefaultIngress plan version = None
    ∧ common.OptionalMap (defaultingress.RouteSelectors pl) = Done (routeSelectors, None)
    ∧ common.OptionalList (defaultingress.ExcludedNamespaces pl)
      = Done (excludedNamespaces, None)
    ∧ (if identifierUnknown state
       then ∃ items,
           cmv1.list_response clusterCollection clusterId = inl items
           ∧ defaultingress.populateLoop (Some defaultingress.zeroDefaultIngress) items
             = Done (Some st, None)
       else state = Some st)
    ∧ c = clusterId
    ∧ i = ValueString (defaultingress.Id st)
    ∧ body = updateBody st pl routeSelectors excludedNamespaces
    ∧ (defaultingress.UpdateIngress state plan clusterId version clusterCollection).1
      = (if identifierUnknown state then [cmv1.IngressesList clusterId] else [])
          ++ [cmv1.IngressUpdate c i body].
Proof.
  unfold defaultingress.UpdateIngress.
  destruct (DeepEqual state plan) eqn:Hne; simpl; [intros Hin; inversion Hin|].
  apply bool_decide_eq_false in Hne.
  destruct (defaultingress.ValidateDefaultIngress plan version) as [e|] eqn:Hv;
    simpl; [intros Hin; inversion Hin|].
  match goal with |- context [mbind ?f _] => set (k := f) end.
  assert (Hk : ∀ st t, cmv1.IngressUpdate c i body ∈ t ++ (k (Some st, None)).1 →
               cmv1.IngressUpdate c i body ∉ t →
               ∃ pl routeSelectors excludedNamespaces,
                 plan = Some pl
                 ∧ common.OptionalMap (defaultingress.RouteSelectors pl)
                   = Done (routeSelectors, None)
                 ∧ common.OptionalList (defaultingress.ExcludedNamespaces pl)
                   = Done (excludedNamespaces, None)
                 ∧ c = clusterId
                 ∧ i = ValueString (defaultingress.Id st)
                 ∧ body = updateBody st pl routeSelectors excludedNamespaces
                 ∧ (k (Some st, None)).1 = [cmv1.IngressUpdate c i body]).
  { intros st t Hin Hnot. apply elem_of_app in Hin as [Hin|Hin]; [contradiction|].
    revert Hin. unfold k. clear k. cbn beta iota.
    destruct plan as [pl|]; [|intros Hin; inversion Hin].
    destruct (defaultingress.getDefaultIngressBuilder (Some pl)) as [[b|]|] eqn:Hb;
      simpl.
    - destruct (getDefaultIngressBuilder_built pl b Hb) as (rs & ens & Hrs & Hens & Hbuilt).
      destruct b as [o]. simpl in Hbuilt. subst o.
      destruct (DeepEqual (defaultingress.ClusterRoutesHostname st)
                          (defaultingress.ClusterRoutesHostname pl)) eqn:Ehost;
        destruct (DeepEqual (defaultingress.ClusterRoutesTlsSecretRef st)
                            (defaultingress.ClusterRoutesTlsSecretRef pl)) eqn:Etls;
        simpl;
        destruct (cmv1.update_response clusterCollection clusterId _ _); simpl;
        intros Hin; apply list_elem_of_singleton in Hin; injection Hin as -> -> ->;
        exists pl, rs, ens; rewrite Ehost, Etls;
        repeat split; first [assumption | reflexivity].
    - destruct (DeepEqual (defaultingress.ClusterRoutesHostname st) _);
        destruct (DeepEqual (defaultingress.ClusterRoutesTlsSecretRef st) _);
        cbn; intros Hin; inversion Hin.
    - intros Hin; inversion Hin. }
  assert (Hk' : ∀ s e, k (s, Some e) = mret (Some e)) by reflexivity.
  clearbody k.
  assert (Hbind : ∀ t a, ((t, Done a) ≫= k).1 = t ++ (k a).1).
  { intros t a. unfold mbind, remote_bind. destruct (k a). reflexivity. }
  assert (Hcase :
    ∀ t st,
      cmv1.IngressUpdate c i body ∉ t →
      (if identifierUnknown state
       then ∃ items,
           cmv1.list_response clusterCollection clusterId = inl items
           ∧ defaultingress.populateLoop (Some defaultingress.zeroDefaultIngress) items
             = Done (Some st, None)
       else state = Some st) →
      t = (if identifierUnknown state then [cmv1.IngressesList clusterId] else []) →
      cmv1.IngressUpdate c i body ∈ t ++ (k (Some st, None)).1 →
      ∃ pl st' routeSelectors excludedNamespaces,
        plan = Some pl
        ∧ state ≠ plan
        ∧ @None error = None
        ∧ common.OptionalMap (defaultingress.RouteSelectors pl) = Done (routeSelectors, None)
        ∧ common.OptionalList (defaultingress.ExcludedNamespaces pl)
          = Done (excludedNamespaces, None)
        ∧ (if identifierUnknown state
           then ∃ items,
               cmv1.list_response clusterCollection clusterId = inl items
               ∧ defaultingress.populateLoop (Some defaultingress.zeroDefaultIngress)
                   items
                 = Done (Some st', None)
           else state = Some st')
        ∧ c = clusterId
        ∧ i = ValueString (defaultingress.Id st')
        ∧ body = updateBody st' pl routeSelectors excludedNamespaces
        ∧ t ++ (k (Some st, None)).1
          = (if identifierUnknown state then [cmv1.IngressesList clusterId] else [])
              ++ [cmv1.IngressUpdate c i body]).
  { intros t st Hnot Hst Ht Hin.
    destruct (Hk st t Hin Hnot) as (pl & rs & ens & Hpl & Hrs & Hens & Hc & Hi & Hbody & Htr).
    exists pl, st, rs, ens. rewrite Htr, <- Ht. repeat split; assumption. }
  destruct state as [s|].
  - destruct (common.IsStringAttributeEmpty (defaultingress.Id s)) eqn:Hid.
    + destruct (cmv1.list_response clusterCollection clusterId) as [items|e] eqn:E.
      * destruct (populateLoop_returns defaultingress.zeroDefaultIngress items)
          as [after Hafter].
        unfold local. rewrite Hafter, Hbind. intros Hin.
        apply (Hcase [cmv1.IngressesList clusterId] after); auto.
        -- intros Hbad. apply list_elem_of_singleton in Hbad. discriminate.
        -- exists items. auto.
      * cbn. rewrite Hk'. cbn. intros Hin.
        apply list_elem_of_singleton in Hin. discriminate.
    + unfold mret, remote_ret. rewrite Hbind. intros Hin.
      apply (Hcase [] s); auto. apply not_elem_of_nil.
  - destruct (cmv1.list_response clusterCollection clusterId) as [items|e] eqn:E.
    + destruct (populateLoop_returns defaultingress.zeroDefaultIngress items)
        as [after Hafter].
      unfold local. rewrite Hafter, Hbind. intros Hin.
      apply (Hcase [cmv1.IngressesList clusterId] after); auto.
      * intros Hbad. apply list_elem_of_singleton in Hbad. discriminate.
      * exists items. auto.
    + cbn. rewrite Hk'. cbn. intros Hin.
      apply list_elem_of_singleton in Hin. discriminate.
Qed.
End update_trace.

(** C2, as stated, fails: with a stored wildcard policy "WildcardsDisallowed",
    a declared one "WildcardsAllowed" and every other field equal (hostname
    absent on both sides), the update request also carries the route
    selectors and the excluded namespaces, which do not differ. *)
Lemma partial_update_counterexample :
  defaultingress.RouteSelectors samples.storedDisallowed
  = defaultingress.RouteSelectors samples.declaredAllowed
  ∧ defaultingress.ExcludedNamespaces samples.storedDisallowed
    = defaultingress.ExcludedNamespaces samples.declaredAllowed
  ∧ defaultingress.UpdateIngress (Some samples.storedDisallowed)
      (Some samples.declaredAllowed) "c1" "4.14.0"
      (samples.clientWith [samples.oneDefaultIngress])
    = ([cmv1.IngressUpdate "c1" "i1"
          (cmv1.mkIngress None None (Some ∅) (Some []) (Some "WildcardsAllowed")
             None None None)],
       Done None).
Proof. repeat split. Qed.

(** C2, amended. Every update request that [UpdateIngress] sends is built
    from the declared intent: it always carries the route selectors and the
    excluded namespaces (empty when none are declared), it carries the
    wildcard policy and the namespace-ownership policy exactly when the
    declared value is not empty, and it carries the hostname and the TLS
    secret reference exactly when the declared value differs from the one of
    the stored state (of the state read from the remote side when the stored
    identifier is empty). *)
Theorem update_request_fields `{!common.Helpers}
    (state plan : option defaultingress.DefaultIngress)
    (clusterId version : string) (clusterCollection : cmv1.ClustersClient)
    (c i : string) (body : cmv1.Ingress) :
  cmv1.IngressUpdate c i body
  ∈ (defaultingress.UpdateIngress state plan clusterId version clusterCollection).1 →
  ∃ pl st routeSelectors excludedNamespaces,
    plan = Some pl
    ∧ common.OptionalMap (defaultingress.RouteSelectors pl) = Done (routeSelectors, None)
    ∧ common.OptionalList (defaultingress.ExcludedNamespaces pl)
      = Done (excludedNamespaces, None)
    ∧ (if match state with
          | None => true
          | Some s => common.IsStringAttributeEmpty (defaultingress.Id s)
          end
       then ∃ items,
           cmv1.list_response clusterCollection clusterId = inl items
           ∧ defaultingress.populateLoop (Some defaultingress.zeroDefaultIngress) items
             = Done (Some st, None)
       else state = Some st)
    ∧ cmv1.routeSelectors body = Some (default ∅ routeSelectors)
    ∧ cmv1.excludedNamespaces body = Some (default [] excludedNamespaces)
    ∧ cmv1.routeWildcardPolicy body
      = (if common.IsStringAttributeEmpty (defaultingress.WildcardPolicy pl) then None
         else Some (ValueString (defaultingress.WildcardPolicy pl)))
    ∧ cmv1.routeNamespaceOwnershipPolicy body
      = (if common.IsStringAttributeEmpty (defaultingress.NamespaceOwnershipPolicy pl)
         then None
         else Some (ValueString (defaultingress.NamespaceOwnershipPolicy pl)))
    ∧ cmv1.clusterRoutesHostname body
      = (if DeepEqual (defaultingress.ClusterRoutesHostname st)
                      (defaultingress.ClusterRoutesHostname pl)
         then None
         else Some (ValueString (defaultingress.ClusterRoutesHostname pl)))
    ∧ cmv1.clusterRoutesTlsSecretRef body
      = (if DeepEqual (defaultingress.ClusterRoutesTlsSecretRef st)
                      (defaultingress.ClusterRoutesTlsSecretRef pl)
         then None
         else Some (ValueString (defaultingress.ClusterRoutesTlsSecretRef pl)))
    ∧ cmv1.id body = None
    ∧ cmv1.default_ body = None.
Proof.
  intros Hin.
  destruct (UpdateIngress_update_sent _ _ _ _ _ _ _ _ Hin)
    as (pl & st & rs & ens & Hpl & _ & _ & Hrs & Hens & Hst & _ & _ & -> & _).
  exists pl, st, rs, ens. repeat split; assumption.
Qed.

Lemma update_request_fields_witness :
  ∃ pl st routeSelectors excludedNamespaces,
    Some samples.declaredAllowed = Some pl
    ∧ Some samples.storedDisallowed = Some st
    ∧ common.OptionalMap (defaultingress.RouteSelectors pl) = Done (routeSelectors, None)
    ∧ common.OptionalList (defaultingress.ExcludedNamespaces pl)
      = Done (excludedNamespaces, None)
    ∧ Some (∅ : gmap string string) = Some (default ∅ routeSelectors)
    ∧ Some ([] : list string) = Some (default [] excludedNamespaces).
Proof.
  assert (Hin : cmv1.IngressUpdate "c1" "i1"
                  (cmv1.mkIngress None None (Some ∅) (Some []) (Some "WildcardsAllowed")
                     None None None)
                ∈ (defaultingress.UpdateIngress (Some samples.storedDisallowed)
                     (Some samples.declaredAllowed) "c1" "4.14.0"
                     (samples.clientWith [samples.oneDefaultIngress])).1)
    by left.
  destruct (update_request_fields _ _ _ _ _ _ _ _ Hin)
    as (pl & st & rs & ens & Hpl & Hrs & Hens & Hst & Hbrs & Hbens & _).
  exists pl, st, rs, ens. repeat split; assumption.
Defined.

(** ** Reading the identifier before an update *)

(** When the stored identifier is unknown, an update request is only ever
    sent after the ingress list has been read, and it is addressed to the
    identifier that the read left in the state. *)
Lemma UpdateIngress_reads_before_update `{!common.Helpers}
    (state plan : option defaultingress.DefaultIngress)
    (clusterId version : string) (clusterCollection : cmv1.ClustersClient)
    (c i : string) (body : cmv1.Ingress) :
  match state with
  | None => true
  | Some s => common.IsStringAttributeEmpty (defaultingress.Id s)
  end = true →
  cmv1.IngressUpdate c i body
  ∈ (defaultingress.UpdateIngress state plan clusterId version clusterCollection).1 →
  ∃ items st,
    cmv1.list_response clusterCollection clusterId = inl items
    ∧ defaultingress.populateLoop (Some defaultingress.zeroDefaultIngress) items
      = Done (Some st, None)
    ∧ i = ValueString (defaultingress.Id st)
    ∧ (defaultingress.UpdateIngress state plan clusterId version clusterCollection).1
      = [cmv1.IngressesList clusterId; cmv1.IngressUpdate clusterId i body].
Proof.
  intros Hunknown Hin.
  destruct (UpdateIngress_update_sent _ _ _ _ _ _ _ _ Hin)
    as (pl & st & rs & ens & _ & _ & _ & _ & _ & Hst & -> & Hi & _ & Htrace).
  rewrite Hunknown in Hst, Htrace. destruct Hst as (items & Hitems & Hloop).
  exists items, st. repeat split; assumption.
Qed.

(** With a default ingress in the list, the identifier is the one of the
    first such ingress. *)
Lemma populateLoop_identifier (state : defaultingress.DefaultIngress)
    (items : list cmv1.Ingress) (ingress : cmv1.Ingress)
    (after : defaultingress.DefaultIngress) :
  List.find cmv1.Default items = Some ingress →
  defaultingress.populateLoop (Some state) items = Done (Some after, None) →
  defaultingress.Id after = NewStringValue (cmv1.ID ingress).
Proof.
  induction items as [|first rest IH]; simpl; [discriminate|].
  destruct (cmv1.Default first).
  - intros [= ->] Hloop.
    destruct (populateFromDefault_fields (Some state) ingress) as (st & Hst & Hid & _).
    rewrite Hst in Hloop. injection Hloop as <-. exact Hid.
  - exact IH.
Qed.

(** C5. With no stored state, a declared intent that passes validation and a
    remote ingress list without a default ingress, [UpdateIngress] reads the
    list and then sends an update request addressed to the empty
    identifier. *)
Theorem update_targets_empty_identifier :
  defaultingress.UpdateIngress None (Some samples.declaredAllowedNoId) "c1" "4.14.0"
    (samples.clientWith [])
  = ([cmv1.IngressesList "c1";
      cmv1.IngressUpdate "c1" ""
        (cmv1.mkIngress None None (Some ∅) (Some []) (Some "WildcardsAllowed")
           None None None)],
     Done None).
Proof. reflexivity. Qed.

(** The same happens for every list in which no ingress is marked default. *)
Lemma update_without_default_ingress `{!common.Helpers}
    (state plan : option defaultingress.DefaultIngress)
    (clusterId version : string) (clusterCollection : cmv1.ClustersClient)
    (items : list cmv1.Ingress) (c i : string) (body : cmv1.Ingress) :
  match state with
  | None => true
  | Some s => common.IsStringAttributeEmpty (defaultingress.Id s)
  end = true →
  cmv1.list_response clusterCollection clusterId = inl items →
  Forall (fun ingress => cmv1.Default ingress = false) items →
  cmv1.IngressUpdate c i body
  ∈ (defaultingress.UpdateIngress state plan clusterId version clusterCollection).1 →
  i = "".
Proof.
  intros Hunknown Hitems Hnone Hin.
  destruct (UpdateIngress_reads_before_update _ _ _ _ _ _ _ _ Hunknown Hin)
    as (items' & st & Hitems' & Hloop & -> & _).
  rewrite Hitems in Hitems'. injection Hitems' as <-.
  rewrite (populateLoop_no_default _ _ Hnone) in Hloop. injection Hloop as <-.
  reflexivity.
Qed.

(** ** What the read path leaves in the state *)

(** A remote default ingress whose route selectors are the empty map gives
    a known, empty map in the state. *)
Lemma read_of_empty_selectors (state : defaultingress.DefaultIngress)
    (client : cmv1.IngressesClient) (ingress : cmv1.Ingress) (rest : list cmv1.Ingress) :
  cmv1.list_response (cmv1.connection client) (cmv1.cluster client)
  = inl (ingress :: rest) →
  cmv1.Default ingress = true →
  cmv1.routeSelectors ingress = Some ∅ →
  ∃ after,
    defaultingress.PopulateDefaultIngress (Some state) client
    = ([cmv1.IngressesList (cmv1.cluster client)], Done (Some after, None))
    ∧ defaultingress.RouteSelectors after
      = mkMapValue (Some ∅) (Some StringType) valueStateKnown
    ∧ Map_IsNull (defaultingress.RouteSelectors after) = false.
Proof.
  intros Hlist Hdefault Hrs.
  destruct (populateFromDefault_fields (Some state) ingress)
    as (after & Hafter & _ & Hsel & _).
  exists after. split.
  - unfold defaultingress.PopulateDefaultIngress, List_Send, mbind, remote_bind.
    rewrite Hlist. simpl. rewrite Hdefault, Hafter. reflexivity.
  - rewrite Hsel, Hrs, fmap_empty. split; reflexivity.
Qed.

(** The four string attributes are null in the state when the remote
    default ingress does not have them. *)
Lemma read_of_absent_strings (state : option defaultingress.DefaultIngress)
    (ingress : cmv1.Ingress) :
  ∃ after,
    defaultingress.populateFromDefault state ingress = Done (Some after, None)
    ∧ (cmv1.routeWildcardPolicy ingress = None →
       defaultingress.WildcardPolicy after = NewStringNull)
    ∧ (cmv1.routeNamespaceOwnershipPolicy ingress = None →
       defaultingress.NamespaceOwnershipPolicy after = NewStringNull)
    ∧ (cmv1.clusterRoutesHostname ingress = None →
       defaultingress.ClusterRoutesHostname after = NewStringNull)
    ∧ (cmv1.clusterRoutesTlsSecretRef ingress = None →
       defaultingress.ClusterRoutesTlsSecretRef after = NewStringNull).
Proof.
  destruct (populateFromDefault_fields state ingress)
    as (after & Hafter & _ & _ & _ & Hwp & Hnop & Hhost & Htls).
  exists after. split; [exact Hafter|].
  repeat split; intros Habsent;
    [rewrite Hwp | rewrite Hnop | rewrite Hhost | rewrite Htls];
    rewrite Habsent; reflexivity.
Qed.

(** Route selectors and excluded namespaces that the remote default ingress
    does not have are left in the state as they were. *)
Lemma read_of_absent_collections (state : defaultingress.DefaultIngress)
    (ingress : cmv1.Ingress) :
  ∃ after,
    defaultingress.populateFromDefault (Some state) ingress = Done (Some after, None)
    ∧ (cmv1.routeSelectors ingress = None →
       defaultingress.RouteSelectors after = defaultingress.RouteSelectors state)
    ∧ (cmv1.excludedNamespaces ingress = None →
       defaultingress.ExcludedNamespaces after = defaultingress.ExcludedNamespaces state).
Proof.
  destruct (populateFromDefault_fields (Some state) ingress)
    as (after & Hafter & _ & Hrs & Hen & _).
  exists after. split; [exact Hafter|].
  split; intros Habsent; [rewrite Hrs | rewrite Hen]; rewrite Habsent; reflexivity.
Qed.

(** C6. For a state with route selectors and excluded namespaces and a remote
    list whose only entry is a default ingress with just an identifier, the
    read leaves the stored selectors and namespaces in place, known and not
    null, while the absent wildcard policy becomes null. *)
Theorem read_keeps_absent_collections :
  ∃ after,
    defaultingress.PopulateDefaultIngress (Some samples.storedWithSelectors)
      (cmv1.Ingresses (samples.clientWith [samples.bareDefaultIngress]) "c1")
    = ([cmv1.IngressesList "c1"], Done (Some after, None))
    ∧ defaultingress.RouteSelectors after
      = mkMapValue (Some {[ "app" := VString (NewStringValue "web") ]}) (Some StringType)
          valueStateKnown
    ∧ Map_IsNull (defaultingress.RouteSelectors after) = false
    ∧ defaultingress.ExcludedNamespaces after
      = mkListValue (Some [VString (NewStringValue "kube-system")]) (Some StringType)
          valueStateKnown
    ∧ List_IsNull (defaultingress.ExcludedNamespaces after) = false
    ∧ defaultingress.WildcardPolicy after = NewStringNull.
Proof. eexists. repeat split. Qed.

(** In [provider/ingress.go] the read assigns every field; a wildcard policy
    or namespace-ownership policy that the remote default ingress does not
    have becomes the known empty string, not null. *)
Lemma provider_read_of_absent_policies `{!provider.Helpers}
    (state : provider.ClusterRosaClassicState) (ingress : cmv1.Ingress) :
  cmv1.routeWildcardPolicy ingress = None →
  cmv1.routeNamespaceOwnershipPolicy ingress = None →
  ∃ d,
    provider.DefaultIngress_ (provider.populateFromDefault state ingress) = Some d
    ∧ provider.WildcardPolicy d = provider.mkString false false ""
    ∧ provider.NamespaceOwnershipPolicy d = provider.mkString false false ""
    ∧ provider.Null (provider.WildcardPolicy d) = false.
Proof.
  intros Hwp Hnop. eexists. split; [reflexivity|]. simpl.
  rewrite Hwp, Hnop. repeat split.
Qed.

(** * Further properties *)

(** ** When the conversions from the tool representation succeed *)

Lemma intoString_inl (v : Value) (s : string) :
  intoString v = inl s ↔ v = VString (NewStringValue s).
Proof.
  split.
  - destruct v as [[st x]| |]; simpl; try discriminate.
    destruct st; simpl; try discriminate. intros [= ->]. reflexivity.
  - intros ->. reflexivity.
Qed.

Lemma asDiagnostic_None (v : Value) :
  asDiagnostic v = None ↔ ∃ s, v = VString (NewStringValue s).
Proof.
  unfold asDiagnostic. split.
  - destruct (intoString v) as [s|d] eqn:E; [|discriminate].
    intros _. exists s. apply intoString_inl. exact E.
  - intros [s ->]. reflexivity.
Qed.

Lemma reflectList_inl (vs : list Value) (ss : list string) :
  reflectList vs = inl ss ↔ vs = (fun v => VString (NewStringValue v)) <$> ss.
Proof.
  split.
  - revert ss. induction vs as [|v vs IH]; intros ss; simpl.
    + intros [= <-]. reflexivity.
    + destruct (intoString v) as [s|d] eqn:E; [|discriminate].
      destruct (reflectList vs) as [ss'|d]; [|discriminate].
      intros [= <-]. rewrite fmap_cons.
      apply intoString_inl in E. rewrite E, (IH ss' eq_refl). reflexivity.
  - intros ->. apply reflectList_strings.
Qed.

Lemma reflectList_inr (vs : list Value) (d : diag.Diagnostic) :
  reflectList vs = inr d → diag.isError d = true.
Proof.
  induction vs as [|v vs IH]; simpl; [discriminate|].
  destruct (intoString v) as [s|d'] eqn:E.
  - destruct (reflectList vs) as [ss|d'']; [discriminate|].
    intros [= <-]. apply IH. reflexivity.
  - intros [= <-]. destruct v as [[[] x]| |]; simpl in E; simplify_eq; reflexivity.
Qed.

(** The results of [StringListToArray] on a known list value. *)
Lemma StringListToArray_known_iff (lv : ListValue) :
  l_state lv = valueStateKnown →
  (∀ strings,
     common.StringListToArray lv = Done (Some strings, None)
     ↔ List_Elements lv = (fun v => VString (NewStringValue v)) <$> strings)
  ∧ ((∃ strings, common.StringListToArray lv = Done (Some strings, None))
     ∨ (∃ e, common.StringListToArray lv = Done (None, Some e))).
Proof.
  intros Hst.
  assert (Hrun : common.StringListToArray lv
                 = match reflectList (List_Elements lv) with
                   | inl ss => Done (Some ss, None)
                   | inr d => Done (None, Some (Errorf "error converting to map object "
                                                  (diag.Detail d)))
                   end).
  { unfold common.StringListToArray, List_IsNull, List_IsUnknown.
    rewrite (known_not_null_or_unknown _ Hst). unfold List_ElementsAs. rewrite Hst.
    destruct (reflectList (List_Elements lv)) as [ss|d] eqn:E; [reflexivity|].
    simpl. rewrite (reflectList_inr _ _ E). reflexivity. }
  rewrite Hrun. split.
  - intros strings. rewrite <- reflectList_inl.
    destruct (reflectList (List_Elements lv)) as [ss|d]; split; intros Heq;
      simplify_eq; reflexivity.
  - destruct (reflectList (List_Elements lv)) as [ss|d]; eauto.
Qed.

(** X1. For a known list value, [StringListToArray] returns a native list
    with a nil error exactly when every element is a known string, and the
    list is then the values of the elements in their order; otherwise it
    returns the nil list and an error. *)
Theorem StringListToArray_known (lv : ListValue) :
  l_state lv = valueStateKnown →
  (∀ strings,
     common.StringListToArray lv = Done (Some strings, None)
     ↔ List_Elements lv = (fun v => VString (NewStringValue v)) <$> strings)
  ∧ ((∃ strings, common.StringListToArray lv = Done (Some strings, None))
     ∨ (∃ e, common.StringListToArray lv = Done (None, Some e))).
Proof. exact (StringListToArray_known_iff lv). Qed.

Lemma StringListToArray_known_witness :
  common.StringListToArray
    (mkListValue (Some [VString (NewStringValue "a"); VString (NewStringValue "b")])
       (Some StringType) valueStateKnown)
  = Done (Some ["a"; "b"], None).
Proof.
  exact (proj2 (proj1 (StringListToArray_known
                         (mkListValue
                            (Some [VString (NewStringValue "a");
                                   VString (NewStringValue "b")])
                            (Some StringType) valueStateKnown) eq_refl) ["a"; "b"])
           eq_refl).
Defined.

Example StringListToArray_null_element :
  common.StringListToArray
    (mkListValue (Some [VString (NewStringValue "a"); VString NewStringNull])
       (Some StringType) valueStateKnown)
  = Done (None, Some "error converting to map object unhandled null value").
Proof. reflexivity. Qed.

(** The results of [OptionalMap] on a known map value. *)
Lemma OptionalMap_known_iff (m : MapValue) :
  m_state m = valueStateKnown →
  (∀ strings,
     common.OptionalMap m = Done (Some strings, None)
     ↔ Map_Elements m = (fun v => VString (NewStringValue v)) <$> strings)
  ∧ ((∃ strings, common.OptionalMap m = Done (Some strings, None))
     ∨ (∃ e, common.OptionalMap m = Done (None, Some e))).
Proof.
  intros Hst.
  set (bad := omap (fun kv : string * Value => asDiagnostic kv.2)
                (map_to_list (Map_Elements m))).
  assert (Hrun : common.OptionalMap m
                 = match bad with
                   | [] => Done (Some (omap asString (Map_Elements m)), None)
                   | d :: _ => Done (None, Some (Errorf "error converting to map object "
                                                   (diag.Detail d)))
                   end).
  { unfold common.OptionalMap, Map_IsNull, Map_IsUnknown.
    rewrite (known_not_null_or_unknown _ Hst). unfold Map_ElementsAs. rewrite Hst.
    fold bad. destruct bad as [|d rest] eqn:E; [reflexivity|].
    assert (Hd : diag.isError d = true).
    { assert (Hin : d ∈ bad) by (rewrite E; left).
      unfold bad in Hin. apply list_elem_of_omap in Hin as ([k v] & _ & Hv).
      simpl in Hv. unfold asDiagnostic in Hv.
      destruct v as [[[] x]| |]; simpl in Hv; simplify_eq; reflexivity. }
    simpl. rewrite Hd. reflexivity. }
  assert (Hbad : bad = [] ↔
                 Map_Elements m
                 = (fun v => VString (NewStringValue v)) <$> omap asString (Map_Elements m)).
  { split.
    - intros Hnil. apply map_eq. intros k. rewrite lookup_fmap, lookup_omap.
      destruct (Map_Elements m !! k) as [v|] eqn:Ek; [|reflexivity]. simpl.
      assert (Hv : asDiagnostic v = None).
      { destruct (asDiagnostic v) as [d|] eqn:Ed; [|reflexivity].
        assert (Hin : d ∈ bad).
        { unfold bad. apply list_elem_of_omap. exists (k, v).
          split; [apply elem_of_map_to_list; exact Ek | exact Ed]. }
        rewrite Hnil in Hin. inversion Hin. }
      apply asDiagnostic_None in Hv as [s ->]. reflexivity.
    - intros Heq. unfold bad. apply omap_nil_Forall, Forall_forall. intros [k v] Hin.
      apply elem_of_map_to_list in Hin. rewrite Heq, lookup_fmap in Hin.
      destruct (omap asString (Map_Elements m) !! k); simplify_eq/=. reflexivity. }
  rewrite Hrun. split.
  - intros strings. destruct bad as [|d rest].
    + split.
      * intros [= <-]. apply Hbad. reflexivity.
      * intros Heq. do 3 f_equal. rewrite Heq. apply map_eq. intros k.
        rewrite lookup_omap, lookup_fmap. destruct (strings !! k); reflexivity.
    + split; [discriminate|]. intros Heq. exfalso.
      assert (Hnil : d :: rest = []); [|discriminate].
      apply Hbad. rewrite Heq at 1. f_equal. rewrite Heq. apply map_eq. intros k.
      rewrite lookup_omap, lookup_fmap. destruct (strings !! k); reflexivity.
  - destruct bad; eauto.
Qed.

(** X2. For a known map value, [OptionalMap] returns a native map with a nil
    error exactly when every element is a known string, and the map then has
    the same keys with the values of the elements; otherwise it returns the
    nil map and an error. *)
Theorem OptionalMap_known (m : MapValue) :
  m_state m = valueStateKnown →
  (∀ strings,
     common.OptionalMap m = Done (Some strings, None)
     ↔ Map_Elements m = (fun v => VString (NewStringValue v)) <$> strings)
  ∧ ((∃ strings, common.OptionalMap m = Done (Some strings, None))
     ∨ (∃ e, common.OptionalMap m = Done (None, Some e))).
Proof. exact (OptionalMap_known_iff m). Qed.

Lemma OptionalMap_known_witness :
  common.OptionalMap
    (mkMapValue (Some {[ "k" := VString (NewStringValue "v") ]}) (Some StringType)
       valueStateKnown)
  = Done (Some {[ "k" := "v" ]}, None).
Proof.
  apply (proj1 (OptionalMap_known
                  (mkMapValue (Some {[ "k" := VString (NewStringValue "v") ]})
                     (Some StringType) valueStateKnown) eq_refl) {[ "k" := "v" ]}).
  vm_compute. reflexivity.
Defined.

Example OptionalMap_unknown_element :
  common.OptionalMap
    (mkMapValue (Some {[ "k" := VString NewStringUnknown ]}) (Some StringType)
       valueStateKnown)
  = Done (None, Some "error converting to map object unhandled unknown value").
Proof. vm_compute. reflexivity. Qed.

(** ** Round trips beyond the non-nil case *)

(** X3. Whatever the native list or map, nil included, the conversion to the
    tool representation gives a known value (neither null nor unknown), and
    converting that value back gives a non-nil collection: the elements of
    the original, and the empty collection for a nil original. *)
Theorem native_round_trip_of_any (stringList : option (list string))
    (stringMap : option (gmap string string)) :
  (∃ listValue,
      common.StringArrayToList NewListValue stringList = Done (listValue, None)
      ∧ List_IsNull listValue = false
      ∧ List_IsUnknown listValue = false
      ∧ length (List_Elements listValue) = length (default [] stringList)
      ∧ common.StringListToArray listValue = Done (Some (default [] stringList), None))
  ∧ (∃ mapValue,
      common.ConvertStringMapToMapType NewMapValue stringMap = Done (mapValue, None)
      ∧ Map_IsNull mapValue = false
      ∧ Map_IsUnknown mapValue = false
      ∧ dom (Map_Elements mapValue) = dom (default ∅ stringMap)
      ∧ common.OptionalMap mapValue = Done (Some (default ∅ stringMap), None)).
Proof.
  split.
  - eexists. split; [apply StringArrayToList_NewListValue|].
    repeat split.
    + simpl. apply length_fmap.
    + apply StringListToArray_known_strings; reflexivity.
  - eexists. split; [apply ConvertStringMapToMapType_NewMapValue|].
    repeat split.
    + simpl. apply dom_fmap_L.
    + apply OptionalMap_known_strings; reflexivity.
Qed.



(** ** The not-empty validators *)

Lemma AddError_spec (diags : diag.Diagnostics) (summary detail : string) :
  diag.NewErrorDiagnostic summary detail ∈ diag.AddError diags summary detail
  ∧ diag.HasError (diag.AddError diags summary detail) = true
  ∧ (∀ d, d ∈ diags → d ∈ diag.AddError diags summary detail).
Proof.
  assert (Hin : diag.NewErrorDiagnostic summary detail
                ∈ diag.AddError diags summary detail) by apply elem_of_Append.
  split; [exact Hin|]. split.
  - unfold diag.HasError. apply existsb_exists.
    eexists. split; [apply list_elem_of_In; exact Hin | reflexivity].
  - intros d Hd. unfold diag.AddError, diag.Append.
    case_bool_decide; [assumption|]. apply elem_of_app. left. assumption.
Qed.

(** X5. The validator of [NotEmptyList] (of [NotEmptyMap]) leaves the
    diagnostics as they are when the attribute cannot be read, when the list
    (map) is null and when it has an element; when the attribute is read, is
    not null and has no element, be it unknown or known, it reports the error
    "Invalid <attribute>." and keeps the diagnostics that were there. *)
Theorem not_empty_validators
    (listRequest : validators.ValidateAttributeRequest provider.List_)
    (mapRequest : validators.ValidateAttributeRequest provider.Map_)
    (resp : diag.Diagnostics) :
  (∀ v, v ∈ validators.NotEmptyList →
     let value := (validators.Config_GetAttribute listRequest).1 in
     let d := (validators.Config_GetAttribute listRequest).2 in
     let step := validators.AttributePath_LastStep listRequest in
     (diag.HasError d = true ∨ provider.List_Null value = true
      ∨ default [] (provider.List_Elems value) ≠ [] →
      validators.Validator v listRequest resp = resp)
     ∧ (diag.HasError d = false → provider.List_Null value = false →
        default [] (provider.List_Elems value) = [] →
        diag.NewErrorDiagnostic ("Invalid " +:+ step +:+ ".")
          ("Expected at least one value in list for " +:+ step +:+ ".")
        ∈ validators.Validator v listRequest resp
        ∧ diag.HasError (validators.Validator v listRequest resp) = true
        ∧ (∀ x, x ∈ resp → x ∈ validators.Validator v listRequest resp)))
  ∧ (∀ v, v ∈ validators.NotEmptyMap →
     let value := (validators.Config_GetAttribute mapRequest).1 in
     let d := (validators.Config_GetAttribute mapRequest).2 in
     let step := validators.AttributePath_LastStep mapRequest in
     (diag.HasError d = true ∨ provider.Map_Null value = true
      ∨ default ∅ (provider.Map_Elems value) ≠ ∅ →
      validators.Validator v mapRequest resp = resp)
     ∧ (diag.HasError d = false → provider.Map_Null value = false →
        default ∅ (provider.Map_Elems value) = ∅ →
        diag.NewErrorDiagnostic ("Invalid " +:+ step +:+ ".")
          ("Expected at least one value in map for " +:+ step +:+ ".")
        ∈ validators.Validator v mapRequest resp
        ∧ diag.HasError (validators.Validator v mapRequest resp) = true
        ∧ (∀ x, x ∈ resp → x ∈ validators.Validator v mapRequest resp))).
Proof.
  split; intros v Hv; apply list_elem_of_singleton in Hv; subst v; simpl.
  - destruct listRequest as [[value d] step]. simpl. split.
    + intros [Herr | [Hnull | Helems]].
      * rewrite Herr. reflexivity.
      * rewrite Hnull, andb_false_r. destruct (diag.HasError d); reflexivity.
      * destruct (default [] (provider.List_Elems value)); [congruence|].
        simpl. destruct (diag.HasError d); reflexivity.
    + intros -> -> ->. simpl. apply AddError_spec.
  - destruct mapRequest as [[value d] step]. simpl. split.
    + intros [Herr | [Hnull | Helems]].
      * rewrite Herr. reflexivity.
      * rewrite Hnull, andb_false_r. destruct (diag.HasError d); reflexivity.
      * assert (Hsize : (size (default ∅ (provider.Map_Elems value)) =? 0)%nat = false).
        { apply Nat.eqb_neq. intros Hz. apply map_size_empty_iff in Hz. contradiction. }
        rewrite Hsize. destruct (diag.HasError d); reflexivity.
    + intros -> -> ->. simpl. apply AddError_spec.
Qed.

Lemma not_empty_validators_witness :
  Forall (fun v =>
            diag.HasError
              (validators.Validator v
                 (validators.mkValidateAttributeRequest
                    (provider.mkList true false None (Some StringType), [])
                    "excluded_namespaces")
                 []) = true)
    validators.NotEmptyList.
Proof.
  apply Forall_forall. intros v Hv.
  apply (proj1 (not_empty_validators
                  (validators.mkValidateAttributeRequest
                     (provider.mkList true false None (Some StringType), [])
                     "excluded_namespaces")
                  (validators.mkValidateAttributeRequest
                     (provider.mkMap false true None (Some StringType), [])
                     "route_selectors")
                  []) v Hv); reflexivity.
Defined.

(** ** What the validation gate lets through *)

(** X6. [ValidateDefaultIngress] returns nil for a declared intent exactly
    when the version comparison answers "greater or equal" without an error,
    hostname and TLS secret reference are both empty or both set, and they
    are empty when the identifier is empty. *)
Theorem ValidateDefaultIngress_accepts `{!common.Helpers}
    (plan : defaultingress.DefaultIngress) (version : string) :
  defaultingress.ValidateDefaultIngress (Some plan) version = None
  ↔ common.IsGreaterThanOrEqual version defaultingress.lowestDefaultIngressVer
    = (true, None)
    ∧ common.IsStringAttributeEmpty (defaultingress.ClusterRoutesHostname plan)
      = common.IsStringAttributeEmpty (defaultingress.ClusterRoutesTlsSecretRef plan)
    ∧ (common.IsStringAttributeEmpty (defaultingress.Id plan) = true →
       common.IsStringAttributeEmpty (defaultingress.ClusterRoutesHostname plan) = true).
Proof.
  split; [apply ValidateDefaultIngress_passes|].
  intros (Hge & Hboth & Hid). unfold defaultingress.ValidateDefaultIngress.
  rewrite Hge, <- Hboth. simpl.
  destruct (common.IsStringAttributeEmpty (defaultingress.Id plan));
    destruct (common.IsStringAttributeEmpty (defaultingress.ClusterRoutesHostname plan));
    simpl; try reflexivity.
  specialize (Hid eq_refl). discriminate.
Qed.

(** X7. Whatever the declared intent, [ValidateDefaultIngress] returns nil
    or one of four errors: the comparison error wrapped as "version ... is
    not supported: ...", the unsupported-version error, "can't be set on
    cluster creation" or "must be set together"; the two version errors are
    returned exactly when the comparison does not answer "greater or equal"
    without an error. *)
Theorem ValidateDefaultIngress_errors `{!common.Helpers}
    (plan : defaultingress.DefaultIngress) (version : string) :
  let answer := common.IsGreaterThanOrEqual version defaultingress.lowestDefaultIngressVer in
  let result := defaultingress.ValidateDefaultIngress (Some plan) version in
  (∀ e, answer.2 = Some e →
        result = Some (Errorf ("version '" +:+ version +:+ "' is not supported: ") e))
  ∧ (answer = (false, None) → result = Some (messages.unsupportedVersion version))
  ∧ (answer = (true, None) →
     result = None ∨ result = Some messages.cantBeSetOnCreation
     ∨ result = Some messages.mustBeSetTogether).
Proof.
  intros answer result. subst result. unfold defaultingress.ValidateDefaultIngress.
  fold answer. destruct answer as [greater [e|]]; simpl.
  - split; [intros e' [= ->]; reflexivity|]. split; discriminate.
  - split; [discriminate|]. split; intros [= ->]; simpl; [reflexivity|].
    destruct (common.IsStringAttributeEmpty (defaultingress.Id plan));
      destruct (common.IsStringAttributeEmpty (defaultingress.ClusterRoutesHostname plan));
      destruct (common.IsStringAttributeEmpty
                  (defaultingress.ClusterRoutesTlsSecretRef plan));
      simpl; auto.
Qed.

(** ** Runs of the reconciler *)

Section runs.
Context `{!common.Helpers}.

Lemma getDefaultIngressBuilder_ok (plan : defaultingress.DefaultIngress)
    (routeSelectors : option (gmap string string))
    (excludedNamespaces : option (list string)) :
  common.OptionalMap (defaultingress.RouteSelectors plan) = Done (routeSelectors, None) →
  common.OptionalList (defaultingress.ExcludedNamespaces plan)
  = Done (excludedNamespaces, None) →
  defaultingress.getDefaultIngressBuilder (Some plan)
  = Done (Some (cmv1.mkIngressBuilder
                  (cmv1.mkIngress None None
                     (Some (default ∅ routeSelectors))
                     (Some (default [] excludedNamespaces))
                     (if common.IsStringAttributeEmpty (defaultingress.WildcardPolicy plan)
                      then None
                      else Some (ValueString (defaultingress.WildcardPolicy plan)))
                     (if common.IsStringAttributeEmpty
                           (defaultingress.NamespaceOwnershipPolicy plan)
                      then None
                      else Some (ValueString (defaultingress.NamespaceOwnershipPolicy plan)))
                     None None))).
Proof.
  intros Hrs Hens. unfold defaultingress.getDefaultIngressBuilder. simpl.
  rewrite Hrs. simpl. rewrite Hens. simpl.
  destruct routeSelectors, excludedNamespaces;
    destruct (common.IsStringAttributeEmpty (defaultingress.WildcardPolicy plan));
    destruct (common.IsStringAttributeEmpty (defaultingress.NamespaceOwnershipPolicy plan));
    reflexivity.
Qed.

Lemma getDefaultIngressBuilder_conversion_error (plan : defaultingress.DefaultIngress) :
  (∃ x e, common.OptionalMap (defaultingress.RouteSelectors plan) = Done (x, Some e))
  ∨ (∃ routeSelectors x e,
        common.OptionalMap (defaultingress.RouteSelectors plan) = Done (routeSelectors, None)
        ∧ common.OptionalList (defaultingress.ExcludedNamespaces plan) = Done (x, Some e)) →
  defaultingress.getDefaultIngressBuilder (Some plan) = Done None.
Proof.
  unfold defaultingress.getDefaultIngressBuilder. simpl.
  intros [(x & e & ->) | (rs & x & e & -> & Hens)]; simpl; [reflexivity|].
  rewrite Hens. destruct rs; reflexivity.
Qed.

(** The part of [UpdateIngress] up to the state the update is computed
    against: the stored one, or the one read from the remote side. *)
Lemma UpdateIngress_resolved (state : option defaultingress.DefaultIngress)
    (pl st : defaultingress.DefaultIngress)
    (clusterId version : string) (clusterCollection : cmv1.ClustersClient)
    (k : option defaultingress.DefaultIngress * option error → remote (option error)) :
  (if match state with
      | None => true
      | Some s => common.IsStringAttributeEmpty (defaultingress.Id s)
      end
   then ∃ items,
       cmv1.list_response clusterCollection clusterId = inl items
       ∧ defaultingress.populateLoop (Some defaultingress.zeroDefaultIngress) items
         = Done (Some st, None)
   else state = Some st) →
  (if match state with
      | None => true
      | Some s => common.IsStringAttributeEmpty (defaultingress.Id s)
      end
   then
     let state := Some defaultingress.zeroDefaultIngress in
     defaultingress.PopulateDefaultIngress state (cmv1.Ingresses clusterCollection clusterId)
   else mret (state, None)) ≫= k
  = ((if match state with
         | None => true
         | Some s => common.IsStringAttributeEmpty (defaultingress.Id s)
         end
      then [cmv1.IngressesList clusterId] else []) ++ (k (Some st, None)).1,
     (k (Some st, None)).2).
Proof.
  destruct (match state with
            | None => true
            | Some s => common.IsStringAttributeEmpty (defaultingress.Id s)
            end).
  - intros (items & Hlist & Hloop).
    unfold defaultingress.PopulateDefaultIngress, List_Send, cmv1.Ingresses. simpl.
    rewrite Hlist. unfold local. rewrite Hloop.
    unfold mbind, remote_bind. destruct (k (Some st, None)). reflexivity.
  - intros ->. unfold mret, remote_ret, mbind, remote_bind.
    destruct (k (Some st, None)). reflexivity.
Qed.
End runs.

(** X8. When the declared intent differs from the stored state, passes
    validation and its route selectors and excluded namespaces convert,
    [UpdateIngress] sends exactly one update request, after the list request
    when the stored identifier is empty and the list is answered; the update
    is addressed to the cluster and to the identifier of the stored (or read)
    state, and the result is nil when the update is answered and the error
    of the remote side, as it is, otherwise. *)
Theorem UpdateIngress_sends_one_update `{!common.Helpers}
    (state : option defaultingress.DefaultIngress)
    (pl st : defaultingress.DefaultIngress)
    (clusterId version : string) (clusterCollection : cmv1.ClustersClient)
    (routeSelectors : option (gmap string string))
    (excludedNamespaces : option (list string)) :
  DeepEqual state (Some pl) = false →
  defaultingress.ValidateDefaultIngress (Some pl) version = None →
  common.OptionalMap (defaultingress.RouteSelectors pl) = Done (routeSelectors, None) →
  common.OptionalList (defaultingress.ExcludedNamespaces pl)
  = Done (excludedNamespaces, None) →
  (if match state with
      | None => true
      | Some s => common.IsStringAttributeEmpty (defaultingress.Id s)
      end
   then ∃ items,
       cmv1.list_response clusterCollection clusterId = inl items
       ∧ defaultingress.populateLoop (Some defaultingress.zeroDefaultIngress) items
         = Done (Some st, None)
   else state = Some st) →
  ∃ body,
    defaultingress.UpdateIngress state (Some pl) clusterId version clusterCollection
    = ((if match state with
           | None => true
           | Some s => common.IsStringAttributeEmpty (defaultingress.Id s)
           end
        then [cmv1.IngressesList clusterId] else [])
         ++ [cmv1.IngressUpdate clusterId (ValueString (defaultingress.Id st)) body],
       Done (match cmv1.update_response clusterCollection clusterId
                     (ValueString (defaultingress.Id st)) body with
             | inl _ => None
             | inr e => Some e
             end)).
Proof.
  intros Hne Hv Hrs Hens Hres.
  unfold defaultingress.UpdateIngress. rewrite Hne. cbn [negb]. rewrite Hv.
  rewrite (UpdateIngress_resolved state pl st clusterId version clusterCollection _ Hres).
  cbv beta iota.
  rewrite (getDefaultIngressBuilder_ok pl _ _ Hrs Hens). simpl.
  destruct (DeepEqual (defaultingress.ClusterRoutesHostname st)
                      (defaultingress.ClusterRoutesHostname pl));
    destruct (DeepEqual (defaultingress.ClusterRoutesTlsSecretRef st)
                        (defaultingress.ClusterRoutesTlsSecretRef pl));
    simpl;
    match goal with
    | |- context [cmv1.update_response _ _ _ ?b] =>
        exists b;
        destruct (cmv1.update_response clusterCollection clusterId
                    (ValueString (defaultingress.Id st)) b)
    end;
    destruct (match state with
              | None => true
              | Some s => common.IsStringAttributeEmpty (defaultingress.Id s)
              end); reflexivity.
Qed.

Lemma UpdateIngress_sends_one_update_witness :
  ∃ body,
    defaultingress.UpdateIngress None (Some samples.declaredAllowedNoId) "c1" "4.14.0"
      (samples.clientWith [samples.oneDefaultIngress])
    = ([cmv1.IngressesList "c1"] ++ [cmv1.IngressUpdate "c1" "i1" body],
       Done (match cmv1.update_response (samples.clientWith [samples.oneDefaultIngress])
                     "c1" "i1" body with
             | inl _ => None
             | inr e => Some e
             end)).
Proof.
  apply (UpdateIngress_sends_one_update None samples.declaredAllowedNoId
           (defaultingress.mkDefaultIngress
              (mkMapValue (Some ∅) (Some StringType) valueStateKnown)
              (mkListValue None None valueStateNull)
              (NewStringValue "WildcardsDisallowed") (NewStringValue "Strict")
              (NewStringValue "i1") NewStringNull NewStringNull)
           "c1" "4.14.0" (samples.clientWith [samples.oneDefaultIngress]) None None).
  - reflexivity.
  - reflexivity.
  - reflexivity.
  - reflexivity.
  - exists [samples.oneDefaultIngress]. split; reflexivity.
Defined.

(** X9. When the stored identifier is empty (or there is no stored state),
    the declared intent differs and passes validation, and the list request
    fails, [UpdateIngress] returns the error of the list request as it is and
    sends no update. *)
Theorem UpdateIngress_list_failure `{!common.Helpers}
    (state plan : option defaultingress.DefaultIngress)
    (clusterId version : string) (clusterCollection : cmv1.ClustersClient) (e : error) :
  DeepEqual state plan = false →
  defaultingress.ValidateDefaultIngress plan version = None →
  match state with
  | None => true
  | Some s => common.IsStringAttributeEmpty (defaultingress.Id s)
  end = true →
  cmv1.list_response clusterCollection clusterId = inr e →
  defaultingress.UpdateIngress state plan clusterId version clusterCollection
  = ([cmv1.IngressesList clusterId], Done (Some e)).
Proof.
  intros Hne Hv Hunknown Hlist.
  unfold defaultingress.UpdateIngress. rewrite Hne. cbn [negb]. rewrite Hv, Hunknown.
  unfold defaultingress.PopulateDefaultIngress, List_Send, cmv1.Ingresses. simpl.
  rewrite Hlist. reflexivity.
Qed.

Lemma UpdateIngress_list_failure_witness :
  defaultingress.UpdateIngress None (Some samples.declaredAllowedNoId) "c1" "4.14.0"
    samples.failingClient
  = ([cmv1.IngressesList "c1"], Done (Some "unreachable")).
Proof.
  apply (UpdateIngress_list_failure None (Some samples.declaredAllowedNoId) "c1" "4.14.0"
           samples.failingClient "unreachable"); reflexivity.
Defined.

(** X10. With a stored state and no declared intent, [UpdateIngress] never
    sends an update: it panics on the nil intent, at once when the stored
    identifier is not empty and after the list request when it is empty and
    the list is answered; when the list request fails its error is
    returned. *)
Theorem UpdateIngress_nil_plan `{!common.Helpers}
    (st : defaultingress.DefaultIngress)
    (clusterId version : string) (clusterCollection : cmv1.ClustersClient) :
  defaultingress.UpdateIngress (Some st) None clusterId version clusterCollection
  = if common.IsStringAttributeEmpty (defaultingress.Id st)
    then match cmv1.list_response clusterCollection clusterId with
         | inl _ => ([cmv1.IngressesList clusterId], Panic)
         | inr e => ([cmv1.IngressesList clusterId], Done (Some e))
         end
    else ([], Panic).
Proof.
  unfold defaultingress.UpdateIngress.
  assert (Hne : DeepEqual (Some st) None = false) by reflexivity.
  rewrite Hne. cbn [negb]. rewrite ValidateDefaultIngress_nil.
  destruct (common.IsStringAttributeEmpty (defaultingress.Id st)); [|reflexivity].
  unfold defaultingress.PopulateDefaultIngress, List_Send, cmv1.Ingresses. simpl.
  destruct (cmv1.list_response clusterCollection clusterId) as [items|e]; [|reflexivity].
  destruct (populateLoop_returns defaultingress.zeroDefaultIngress items) as [after ->].
  reflexivity.
Qed.

(** X11. When the declared intent differs from the stored state and passes
    validation but its route selectors or its excluded namespaces do not
    convert, [getDefaultIngressBuilder] returns the nil builder and
    [UpdateIngress] panics on it, without sending an update. *)
Theorem UpdateIngress_conversion_failure `{!common.Helpers}
    (state : option defaultingress.DefaultIngress)
    (pl st : defaultingress.DefaultIngress)
    (clusterId version : string) (clusterCollection : cmv1.ClustersClient) :
  DeepEqual state (Some pl) = false →
  defaultingress.ValidateDefaultIngress (Some pl) version = None →
  (if match state with
      | None => true
      | Some s => common.IsStringAttributeEmpty (defaultingress.Id s)
      end
   then ∃ items,
       cmv1.list_response clusterCollection clusterId = inl items
       ∧ defaultingress.populateLoop (Some defaultingress.zeroDefaultIngress) items
         = Done (Some st, None)
   else state = Some st) →
  (∃ x e, common.OptionalMap (defaultingress.RouteSelectors pl) = Done (x, Some e))
  ∨ (∃ routeSelectors x e,
        common.OptionalMap (defaultingress.RouteSelectors pl) = Done (routeSelectors, None)
        ∧ common.OptionalList (defaultingress.ExcludedNamespaces pl) = Done (x, Some e)) →
  defaultingress.UpdateIngress state (Some pl) clusterId version clusterCollection
  = ((if match state with
         | None => true
         | Some s => common.IsStringAttributeEmpty (defaultingress.Id s)
         end
      then [cmv1.IngressesList clusterId] else []),
     Panic).
Proof.
  intros Hne Hv Hres Hconv.
  unfold defaultingress.UpdateIngress. rewrite Hne. cbn [negb]. rewrite Hv.
  rewrite (UpdateIngress_resolved state pl st clusterId version clusterCollection _ Hres).
  cbv beta iota.
  rewrite (getDefaultIngressBuilder_conversion_error pl Hconv). simpl.
  destruct (DeepEqual (defaultingress.ClusterRoutesHostname st)
                      (defaultingress.ClusterRoutesHostname pl));
    destruct (DeepEqual (defaultingress.ClusterRoutesTlsSecretRef st)
                        (defaultingress.ClusterRoutesTlsSecretRef pl));
    simpl;
    destruct (match state with
              | None => true
              | Some s => common.IsStringAttributeEmpty (defaultingress.Id s)
              end); reflexivity.
Qed.

Lemma UpdateIngress_conversion_failure_witness :
  defaultingress.UpdateIngress (Some samples.storedDisallowed)
    (Some samples.declaredNullSelector) "c1" "4.14.0"
    (samples.clientWith [samples.oneDefaultIngress])
  = ([], Panic).
Proof.
  refine (UpdateIngress_conversion_failure (Some samples.storedDisallowed)
            samples.declaredNullSelector samples.storedDisallowed "c1" "4.14.0"
            (samples.clientWith [samples.oneDefaultIngress]) _ _ _ _).
  - reflexivity.
  - reflexivity.
  - reflexivity.
  - left. eexists. eexists. vm_compute. reflexivity.
Defined.

(** ** More on the read path *)

Lemma populateFromDefault_idempotent (state : option defaultingress.DefaultIngress)
    (ingress : cmv1.Ingress) (after : defaultingress.DefaultIngress) :
  defaultingress.populateFromDefault state ingress = Done (Some after, None) →
  defaultingress.populateFromDefault (Some after) ingress = Done (Some after, None).
Proof.
  intros Hfirst.
  destruct (populateFromDefault_fields state ingress)
    as (a1 & H1 & Hid1 & Hrs1 & Hen1 & Hwp1 & Hnop1 & Hhost1 & Htls1).
  rewrite H1 in Hfirst. injection Hfirst as ->.
  destruct (populateFromDefault_fields (Some after) ingress)
    as (a2 & H2 & Hid2 & Hrs2 & Hen2 & Hwp2 & Hnop2 & Hhost2 & Htls2).
  rewrite H2. do 3 f_equal. simpl in Hrs2, Hen2.
  destruct a2 as [rs2 en2 wp2 nop2 id2 host2 tls2],
           after as [rs1 en1 wp1 nop1 id1 host1 tls1].
  simpl in *. subst id2 wp2 nop2 host2 tls2 id1 wp1 nop1 host1 tls1.
  f_equal.
  - rewrite Hrs2. destruct (cmv1.routeSelectors ingress); [symmetry; exact Hrs1|reflexivity].
  - rewrite Hen2. destruct (cmv1.excludedNamespaces ingress);
      [symmetry; exact Hen1|reflexivity].
Qed.

Lemma populateLoop_idempotent (state after : defaultingress.DefaultIngress)
    (items : list cmv1.Ingress) :
  defaultingress.populateLoop (Some state) items = Done (Some after, None) →
  defaultingress.populateLoop (Some after) items = Done (Some after, None).
Proof.
  induction items as [|ingress rest IH]; simpl.
  - intros _. reflexivity.
  - destruct (cmv1.Default ingress); [apply populateFromDefault_idempotent | exact IH].
Qed.

(** X12. Reading twice is reading once: when [PopulateDefaultIngress]
    returns a state, running it again on that state against the same remote
    list returns the same state. *)
Theorem PopulateDefaultIngress_idempotent
    (state after : defaultingress.DefaultIngress) (client : cmv1.IngressesClient)
    (trace : list cmv1.Call) :
  defaultingress.PopulateDefaultIngress (Some state) client
  = (trace, Done (Some after, None)) →
  defaultingress.PopulateDefaultIngress (Some after) client
  = (trace, Done (Some after, None)).
Proof.
  intros Hfirst.
  destruct (PopulateDefaultIngress_some state client)
    as [(e & _ & He) | (items & a & Hlist & Hloop & Hrun)].
  - rewrite He in Hfirst. discriminate.
  - rewrite Hrun in Hfirst. injection Hfirst as <- ->.
    apply populateLoop_idempotent in Hloop.
    destruct (PopulateDefaultIngress_some after client)
      as [(e & Hlist' & _) | (items' & a' & Hlist' & Hloop' & Hrun')].
    + rewrite Hlist in Hlist'. discriminate.
    + rewrite Hlist in Hlist'. injection Hlist' as <-.
      rewrite Hloop in Hloop'. injection Hloop' as <-. exact Hrun'.
Qed.

Lemma PopulateDefaultIngress_idempotent_witness :
  defaultingress.PopulateDefaultIngress
    (Some (defaultingress.mkDefaultIngress
             (mkMapValue (Some ∅) (Some StringType) valueStateKnown)
             (NewListNull StringType)
             (NewStringValue "WildcardsDisallowed") (NewStringValue "Strict")
             (NewStringValue "i1") NewStringNull NewStringNull))
    (cmv1.Ingresses (samples.clientWith [samples.oneDefaultIngress]) "c1")
  = ([cmv1.IngressesList "c1"],
     Done (Some (defaultingress.mkDefaultIngress
                   (mkMapValue (Some ∅) (Some StringType) valueStateKnown)
                   (NewListNull StringType)
                   (NewStringValue "WildcardsDisallowed") (NewStringValue "Strict")
                   (NewStringValue "i1") NewStringNull NewStringNull), None)).
Proof.
  apply (PopulateDefaultIngress_idempotent samples.nullIngress).
  reflexivity.
Defined.

Lemma populateLoop_skips (state : option defaultingress.DefaultIngress)
    (before after : list cmv1.Ingress) (ingress : cmv1.Ingress) :
  Forall (fun i => cmv1.Default i = false) before →
  cmv1.Default ingress = true →
  defaultingress.populateLoop state (before ++ ingress :: after)
  = defaultingress.populateFromDefault state ingress.
Proof.
  intros Hbefore Hdefault. induction Hbefore as [|i before Hi _ IH]; simpl.
  - rewrite Hdefault. reflexivity.
  - rewrite Hi. exact IH.
Qed.

(** X13. The state is populated from the first ingress of the list that is
    marked default: the ingresses before it are skipped and those after it
    are not looked at, default or not. *)
Theorem PopulateDefaultIngress_first_default
    (state : defaultingress.DefaultIngress) (client : cmv1.IngressesClient)
    (before after : list cmv1.Ingress) (ingress : cmv1.Ingress) :
  cmv1.list_response (cmv1.connection client) (cmv1.cluster client)
  = inl (before ++ ingress :: after) →
  Forall (fun i => cmv1.Default i = false) before →
  cmv1.Default ingress = true →
  defaultingress.PopulateDefaultIngress (Some state) client
  = ([cmv1.IngressesList (cmv1.cluster client)],
     defaultingress.populateFromDefault (Some state) ingress).
Proof.
  intros Hlist Hbefore Hdefault.
  unfold defaultingress.PopulateDefaultIngress, List_Send, mbind, remote_bind.
  rewrite Hlist. unfold local.
  rewrite (populateLoop_skips _ _ _ _ Hbefore Hdefault).
  destruct (populateFromDefault_fields (Some state) ingress) as (a & -> & _).
  reflexivity.
Qed.

Lemma PopulateDefaultIngress_first_default_witness :
  defaultingress.PopulateDefaultIngress (Some samples.nullIngress)
    (cmv1.Ingresses
       (samples.clientWith
          [samples.otherIngress; samples.oneDefaultIngress; samples.secondDefaultIngress])
       "c1")
  = ([cmv1.IngressesList "c1"],
     defaultingress.populateFromDefault (Some samples.nullIngress) samples.oneDefaultIngress).
Proof.
  apply (PopulateDefaultIngress_first_default samples.nullIngress
           (cmv1.Ingresses
              (samples.clientWith
                 [samples.otherIngress; samples.oneDefaultIngress;
                  samples.secondDefaultIngress]) "c1")
           [samples.otherIngress] [samples.secondDefaultIngress] samples.oneDefaultIngress).
  - reflexivity.
  - repeat constructor.
  - reflexivity.
Defined.

(** X14. [PopulateDefaultIngress] sends nothing for a nil state; for a
    state it sends one list request, fails exactly when that request fails,
    then with the request's error and a nil state, and otherwise returns a
    state, which is the one it was given when no ingress of the list is
    marked default. It does not panic. *)
Theorem PopulateDefaultIngress_outcome (state : defaultingress.DefaultIngress)
    (client : cmv1.IngressesClient) :
  defaultingress.PopulateDefaultIngress None client = ([], Done (None, None))
  ∧ match cmv1.list_response (cmv1.connection client) (cmv1.cluster client) with
    | inr e =>
        defaultingress.PopulateDefaultIngress (Some state) client
        = ([cmv1.IngressesList (cmv1.cluster client)], Done (None, Some e))
    | inl items =>
        ∃ after,
          defaultingress.PopulateDefaultIngress (Some state) client
          = ([cmv1.IngressesList (cmv1.cluster client)], Done (Some after, None))
          ∧ (Forall (fun i => cmv1.Default i = false) items → after = state)
    end.
Proof.
  split; [reflexivity|].
  destruct (PopulateDefaultIngress_some state client)
    as [(e & Hlist & Hrun) | (items & after & Hlist & Hloop & Hrun)]; rewrite Hlist.
  - exact Hrun.
  - exists after. split; [exact Hrun|].
    intros Hnone. rewrite (populateLoop_no_default _ _ Hnone) in Hloop.
    injection Hloop as <-. reflexivity.
Qed.

(** ** The creation request *)

(** X15. [SetIngress] leaves the cluster builder as it is for a nil state.
    For a state whose route selectors and excluded namespaces convert, it
    replaces the ingresses of the cluster builder by one ingress, marked
    default, that carries the route selectors and excluded namespaces (empty
    when none are declared) and the two policies when they are not empty; it
    never carries hostname or TLS secret reference, and the other attributes
    of the cluster builder are kept. *)
Theorem SetIngress_builds_default_ingress `{!common.Helpers}
    (st : defaultingress.DefaultIngress) (clusterBuilder : cmv1.ClusterBuilder)
    (routeSelectors : option (gmap string string))
    (excludedNamespaces : option (list string)) :
  defaultingress.SetIngress None (Some clusterBuilder) = Done (Some clusterBuilder)
  ∧ (common.OptionalMap (defaultingress.RouteSelectors st) = Done (routeSelectors, None) →
     common.OptionalList (defaultingress.ExcludedNamespaces st)
     = Done (excludedNamespaces, None) →
     defaultingress.SetIngress (Some st) (Some clusterBuilder)
     = Done (Some (cmv1.mkClusterBuilder (cmv1.cluster_attributes clusterBuilder)
                     (Some [Some (cmv1.mkIngressBuilder
                                    (cmv1.mkIngress None (Some true)
                                       (Some (default ∅ routeSelectors))
                                       (Some (default [] excludedNamespaces))
                                       (if common.IsStringAttributeEmpty
                                             (defaultingress.WildcardPolicy st)
                                        then None
                                        else Some (ValueString
                                                     (defaultingress.WildcardPolicy st)))
                                       (if common.IsStringAttributeEmpty
                                             (defaultingress.NamespaceOwnershipPolicy st)
                                        then None
                                        else Some (ValueString
                                                     (defaultingress.NamespaceOwnershipPolicy
                                                        st)))
                                       None None))])))).
Proof.
  split; [reflexivity|]. intros Hrs Hens.
  unfold defaultingress.SetIngress.
  rewrite (getDefaultIngressBuilder_ok st _ _ Hrs Hens). reflexivity.
Qed.

Lemma SetIngress_builds_default_ingress_witness :
  defaultingress.SetIngress (Some samples.declaredHostnameAtCreation)
    (Some (cmv1.mkClusterBuilder {[ "name" := "my-cluster" ]} None))
  = Done (Some (cmv1.mkClusterBuilder {[ "name" := "my-cluster" ]}
                  (Some [Some (cmv1.mkIngressBuilder
                                 (cmv1.mkIngress None (Some true) (Some ∅) (Some [])
                                    None None None None))]))).
Proof.
  exact (proj2 (SetIngress_builds_default_ingress samples.declaredHostnameAtCreation
                  (cmv1.mkClusterBuilder {[ "name" := "my-cluster" ]} None) None None)
           eq_refl eq_refl).
Defined.

(** X16. [SetIngress] panics for a state whose route selectors or excluded
    namespaces do not convert (it calls [Default] on the nil builder), and
    for any state when the cluster builder is nil. *)
Theorem SetIngress_panics `{!common.Helpers}
    (st : defaultingress.DefaultIngress) (clusterBuilder : option cmv1.ClusterBuilder) :
  defaultingress.SetIngress (Some st) None = Panic
  ∧ ((∃ x e, common.OptionalMap (defaultingress.RouteSelectors st) = Done (x, Some e))
     ∨ (∃ routeSelectors x e,
           common.OptionalMap (defaultingress.RouteSelectors st)
           = Done (routeSelectors, None)
           ∧ common.OptionalList (defaultingress.ExcludedNamespaces st)
             = Done (x, Some e)) →
     defaultingress.SetIngress (Some st) clusterBuilder = Panic).
Proof.
  unfold defaultingress.SetIngress. split.
  - destruct (defaultingress.getDefaultIngressBuilder (Some st)) as [[b|]|]; reflexivity.
  - intros Hconv. rewrite (getDefaultIngressBuilder_conversion_error st Hconv).
    reflexivity.
Qed.

Lemma SetIngress_panics_witness :
  defaultingress.SetIngress (Some samples.declaredNullSelector)
    (Some (cmv1.mkClusterBuilder ∅ None))
  = Panic.
Proof.
  apply (proj2 (SetIngress_panics samples.declaredNullSelector
                  (Some (cmv1.mkClusterBuilder ∅ None)))).
  left. eexists. eexists. vm_compute. reflexivity.
Defined.

(** ** Writing and reading back *)

(** X17. When the remote default ingress has what the request built from a
    declared intent carries, reading it back gives route selectors and
    excluded namespaces that are never null. Declared route selectors that
    are a known map of strings are read back as they were declared; declared
    route selectors that are null are read back as the known empty map, which
    is not deeply equal to what was declared. *)
Theorem read_back_of_request `{!common.Helpers}
    (pl : defaultingress.DefaultIngress) (b : cmv1.IngressBuilder)
    (state : option defaultingress.DefaultIngress) (identifier : string) :
  defaultingress.getDefaultIngressBuilder (Some pl) = Done (Some b) →
  ∃ after,
    defaultingress.populateFromDefault state
      (cmv1.mkIngress (Some identifier) (Some true)
         (cmv1.routeSelectors (cmv1.built b)) (cmv1.excludedNamespaces (cmv1.built b))
         (cmv1.routeWildcardPolicy (cmv1.built b))
         (cmv1.routeNamespaceOwnershipPolicy (cmv1.built b))
         (cmv1.clusterRoutesHostname (cmv1.built b))
         (cmv1.clusterRoutesTlsSecretRef (cmv1.built b)))
    = Done (Some after, None)
    ∧ defaultingress.Id after = NewStringValue identifier
    ∧ Map_IsNull (defaultingress.RouteSelectors after) = false
    ∧ List_IsNull (defaultingress.ExcludedNamespaces after) = false
    ∧ (∀ entries,
         defaultingress.RouteSelectors pl
         = mkMapValue (Some entries) (Some StringType) valueStateKnown →
         defaultingress.RouteSelectors after = defaultingress.RouteSelectors pl)
    ∧ (Map_IsNull (defaultingress.RouteSelectors pl) = true →
       defaultingress.RouteSelectors after
       = mkMapValue (Some ∅) (Some StringType) valueStateKnown
       ∧ DeepEqual (defaultingress.RouteSelectors after) (defaultingress.RouteSelectors pl)
         = false).
Proof.
  intros Hb.
  destruct (getDefaultIngressBuilder_built pl b Hb) as (rs & ens & Hrs & Hens & Hbuilt).
  rewrite Hbuilt. simpl.
  match goal with
  | |- ∃ after, defaultingress.populateFromDefault state ?i = _ ∧ _ =>
      destruct (populateFromDefault_fields state i)
        as (after & Hafter & Hid & Hsel & Hen & _)
  end.
  simpl in Hid, Hsel, Hen.
  exists after. split; [exact Hafter|]. split; [exact Hid|].
  split; [rewrite Hsel; reflexivity|]. split; [rewrite Hen; reflexivity|]. split.
  - intros entries Hpl. rewrite Hsel, Hpl. rewrite Hpl in Hrs.
    destruct rs as [rs|].
    + apply (proj1 (OptionalMap_known_iff
                      (mkMapValue (Some entries) (Some StringType) valueStateKnown)
                      eq_refl)) in Hrs.
      unfold Map_Elements in Hrs. simpl in Hrs. subst entries. reflexivity.
    + destruct (proj2 (OptionalMap_known_iff
                         (mkMapValue (Some entries) (Some StringType) valueStateKnown)
                         eq_refl)) as [(strings & Hs) | (e & He)];
        rewrite Hrs in *; discriminate.
  - intros Hnull.
    rewrite (OptionalMap_null_or_unknown _ (orb_true_intro _ _ (or_introl Hnull))) in Hrs.
    injection Hrs as <-. rewrite Hsel. simpl. rewrite fmap_empty.
    split; [reflexivity|].
    unfold DeepEqual. apply bool_decide_eq_false. intros Heq.
    rewrite <- Heq in Hnull. discriminate.
Qed.

Lemma read_back_of_request_witness :
  ∃ after,
    defaultingress.populateFromDefault None
      (cmv1.mkIngress (Some "i1") (Some true) (Some ∅) (Some []) (Some "WildcardsAllowed")
         None None None)
    = Done (Some after, None)
    ∧ DeepEqual (defaultingress.RouteSelectors after)
        (defaultingress.RouteSelectors samples.declaredAllowed) = false.
Proof.
  assert (Hb : defaultingress.getDefaultIngressBuilder (Some samples.declaredAllowed)
               = Done (Some (cmv1.mkIngressBuilder
                               (cmv1.mkIngress None None (Some ∅) (Some [])
                                  (Some "WildcardsAllowed") None None None))))
    by reflexivity.
  destruct (read_back_of_request samples.declaredAllowed _ None "i1" Hb)
    as (after & Hafter & _ & _ & _ & _ & Hnull).
  exists after. split; [exact Hafter|]. apply Hnull. reflexivity.
Defined.

(** ** The reconciler on the cluster state *)

(** X18. [validateDefaultIngress] of [provider/ingress.go] and
    [ValidateDefaultIngress] of [provider/defaultingress] return the same
    result on a default ingress and a version for which the version
    comparison and the emptiness of identifier, hostname and TLS secret
    reference are the same on both sides. *)
Theorem validation_gates_agree `{!common.Helpers} `{!provider.Helpers}
    (clusterState : provider.ClusterRosaClassicState) (d : provider.DefaultIngress)
    (pl : defaultingress.DefaultIngress) (version : string) :
  provider.DefaultIngress_ clusterState = Some d →
  provider.IsGreaterThanOrEqual version provider.lowestDefaultIngressVer
  = common.IsGreaterThanOrEqual version defaultingress.lowestDefaultIngressVer →
  provider.IsStringAttributeEmpty (provider.Id d)
  = common.IsStringAttributeEmpty (defaultingress.Id pl) →
  provider.IsStringAttributeEmpty (provider.ClusterRoutesHostname d)
  = common.IsStringAttributeEmpty (defaultingress.ClusterRoutesHostname pl) →
  provider.IsStringAttributeEmpty (provider.ClusterRoutesTlsSecretRef d)
  = common.IsStringAttributeEmpty (defaultingress.ClusterRoutesTlsSecretRef pl) →
  provider.validateDefaultIngress clusterState version
  = defaultingress.ValidateDefaultIngress (Some pl) version
  ∧ (provider.validateDefaultIngress
       (provider.set_DefaultIngress None clusterState) version = None
     ∧ defaultingress.ValidateDefaultIngress None version = None).
Proof.
  intros Hd Hge Hid Hhost Htls.
  unfold provider.validateDefaultIngress, defaultingress.ValidateDefaultIngress.
  rewrite Hd, Hge, Hid, Hhost, Htls. repeat split.
Qed.

Lemma validation_gates_agree_witness :
  provider.validateDefaultIngress samples.sampleClusterState "4.13.9"
  = defaultingress.ValidateDefaultIngress (Some samples.storedDisallowed) "4.13.9".
Proof.
  refine (proj1 (validation_gates_agree samples.sampleClusterState _
                   samples.storedDisallowed "4.13.9" eq_refl _ _ _ _)); reflexivity.
Defined.





(** ** The other operations on a group membership *)

Lemma populateState_fields (object : cmv1.User)
    (state : groupmembership.GroupMembershipState) :
  groupmembership.Cluster (groupmembership.populateState object state)
  = groupmembership.Cluster state
  ∧ groupmembership.Group (groupmembership.populateState object state)
    = groupmembership.Group state
  ∧ match cmv1.user_id object with
    | Some id =>
        groupmembership.ID (groupmembership.populateState object state) = NewStringValue id
        ∧ groupmembership.User (groupmembership.populateState object state)
          = NewStringValue id
    | None => groupmembership.populateState object state = state
    end.
Proof.
  unfold groupmembership.populateState, cmv1.User_GetID.
  destruct (cmv1.user_id object); simpl; repeat split.
Qed.

(** X20. [Read] sends nothing and leaves the state of the response as it is
    when reading the request or the response so far has an error diagnostic.
    Otherwise it sends exactly one get request, addressed by the [String()]
    forms of cluster, group and identifier; when the request fails the state
    is left as it is and an error is reported; when it succeeds the state is
    stored with cluster and group unchanged and with identifier and user both
    set to the identifier of the remote user (unchanged when it has none). *)
Theorem Read_outcome (quote : string → string)
    (g : groupmembership.GroupMembershipResource) (world : cmv1.UsersRemote)
    (req : groupmembership.Request) (resp : groupmembership.Response) :
  let state := (groupmembership.req_Get req).1 in
  let diags :=
    diag.AppendAll (groupmembership.resp_Diagnostics resp) (groupmembership.req_Get req).2 in
  let cluster := String_String quote (groupmembership.Cluster state) in
  let group := String_String quote (groupmembership.Group state) in
  let user := String_String quote (groupmembership.ID state) in
  (diag.HasError diags = true →
   groupmembership.Read quote g world req resp
   = ([], Done (groupmembership.mkResponse (groupmembership.resp_State resp) diags)))
  ∧ (diag.HasError diags = false →
     ∃ resp',
       groupmembership.Read quote g world req resp
       = ([cmv1.UserGet cluster group user], Done resp')
       ∧ match cmv1.get_response world cluster group user with
         | inr e =>
             groupmembership.resp_State resp' = groupmembership.resp_State resp
             ∧ diag.HasError (groupmembership.resp_Diagnostics resp') = true
         | inl object =>
             groupmembership.resp_Diagnostics resp' = diags
             ∧ ∃ stored,
                 groupmembership.resp_State resp' = Some stored
                 ∧ groupmembership.Cluster stored = groupmembership.Cluster state
                 ∧ groupmembership.Group stored = groupmembership.Group state
                 ∧ match cmv1.user_id object with
                   | Some id =>
                       groupmembership.ID stored = NewStringValue id
                       ∧ groupmembership.User stored = NewStringValue id
                   | None => stored = state
                   end
         end).
Proof.
  intros state diags cluster group user.
  unfold groupmembership.Read. subst state diags cluster group user.
  destruct (groupmembership.req_Get req) as [state d]. simpl.
  split; intros Herr; rewrite Herr; [reflexivity|].
  unfold Get_Send, mbind, usersRemote_bind.
  destruct (cmv1.get_response world _ _ _) as [object|e]; simpl; eexists;
    (split; [reflexivity|]); simpl; split; try reflexivity.
  - eexists. split; [reflexivity|]. apply populateState_fields.
  - apply AddError_spec.
Qed.

Lemma Read_outcome_witness :
  ∃ resp',
    groupmembership.Read (fun s => s) samples.sampleResource samples.sampleWorld
      samples.sampleRequest (groupmembership.mkResponse None [])
    = ([cmv1.UserGet "c1" "admins" "u1"], Done resp')
    ∧ groupmembership.resp_Diagnostics resp' = [].
Proof.
  destruct (proj2 (Read_outcome (fun s => s) samples.sampleResource samples.sampleWorld
                     samples.sampleRequest (groupmembership.mkResponse None [])) eq_refl)
    as (resp' & Hrun & Hdiags & _).
  exists resp'. split; [exact Hrun | exact Hdiags].
Defined.

(** X21. [Create] sends nothing when reading the plan or the response so far
    has an error diagnostic. Otherwise it polls the cluster first; when the
    polling fails it sends no add request, reports an error and leaves the
    state as it is; when the polling succeeds it sends one add request for
    the user, after the polling, and stores the state only when the add
    request succeeds. *)
Theorem Create_outcome (quote : string → string)
    (g : groupmembership.GroupMembershipResource) (world : cmv1.UsersRemote)
    (req : groupmembership.Request) (resp : groupmembership.Response) :
  let state := (groupmembership.req_Get req).1 in
  let diags :=
    diag.AppendAll (groupmembership.resp_Diagnostics resp) (groupmembership.req_Get req).2 in
  let cluster := String_String quote (groupmembership.Cluster state) in
  let group := String_String quote (groupmembership.Group state) in
  let body := cmv1.mkUser (Some (String_String quote (groupmembership.User state))) in
  (diag.HasError diags = true →
   groupmembership.Create quote g world req resp
   = ([], Done (groupmembership.mkResponse (groupmembership.resp_State resp) diags)))
  ∧ (diag.HasError diags = false →
     ∃ resp',
       match cmv1.poll_response world cluster with
       | Some e =>
           groupmembership.Create quote g world req resp
           = ([cmv1.ClusterPoll cluster], Done resp')
           ∧ groupmembership.resp_State resp' = groupmembership.resp_State resp
           ∧ diag.HasError (groupmembership.resp_Diagnostics resp') = true
       | None =>
           groupmembership.Create quote g world req resp
           = ([cmv1.ClusterPoll cluster; cmv1.UsersAdd cluster group body], Done resp')
           ∧ match cmv1.add_response world cluster group body with
             | inr e =>
                 groupmembership.resp_State resp' = groupmembership.resp_State resp
                 ∧ diag.HasError (groupmembership.resp_Diagnostics resp') = true
             | inl object =>
                 groupmembership.resp_Diagnostics resp' = diags
                 ∧ ∃ stored,
                     groupmembership.resp_State resp' = Some stored
                     ∧ groupmembership.Cluster stored = groupmembership.Cluster state
                     ∧ groupmembership.Group stored = groupmembership.Group state
                     ∧ match cmv1.user_id object with
                       | Some id =>
                           groupmembership.ID stored = NewStringValue id
                           ∧ groupmembership.User stored = NewStringValue id
                       | None => stored = state
                       end
             end
       end).
Proof.
  intros state diags cluster group body.
  unfold groupmembership.Create. subst state diags cluster group body.
  destruct (groupmembership.req_Get req) as [state d]. simpl.
  split; intros Herr; rewrite Herr; [reflexivity|].
  unfold Poll_Start, Add_Send, mbind, usersRemote_bind.
  destruct (cmv1.poll_response world _) as [e|]; simpl.
  - eexists. split; [reflexivity|]. simpl. split; [reflexivity|]. apply AddError_spec.
  - destruct (cmv1.add_response world _ _ _) as [object|e]; simpl; eexists;
      (split; [reflexivity|]); simpl; split; try reflexivity.
    + eexists. split; [reflexivity|]. apply populateState_fields.
    + apply AddError_spec.
Qed.

Lemma Create_outcome_witness :
  ∃ resp',
    groupmembership.Create (fun s => s) samples.sampleResource samples.sampleWorld
      samples.sampleRequest (groupmembership.mkResponse None [])
    = ([cmv1.ClusterPoll "c1"; cmv1.UsersAdd "c1" "admins" (cmv1.mkUser (Some "u1"))],
       Done resp')
    ∧ groupmembership.resp_Diagnostics resp' = [].
Proof.
  destruct (proj2 (Create_outcome (fun s => s) samples.sampleResource samples.sampleWorld
                     samples.sampleRequest (groupmembership.mkResponse None [])) eq_refl)
    as (resp' & Hrun & Hdiags & _).
  exists resp'. split; [exact Hrun | exact Hdiags].
Defined.

(** X22. [Delete] sends nothing when reading the state or the response so
    far has an error diagnostic. Otherwise it sends exactly one delete
    request; when it succeeds the state is removed and the diagnostics are
    unchanged, and when it fails the state is left as it is and an error is
    reported. *)
Theorem Delete_outcome (quote : string → string)
    (g : groupmembership.GroupMembershipResource) (world : cmv1.UsersRemote)
    (req : groupmembership.Request) (resp : groupmembership.Response) :
  let state := (groupmembership.req_Get req).1 in
  let diags :=
    diag.AppendAll (groupmembership.resp_Diagnostics resp) (groupmembership.req_Get req).2 in
  let cluster := String_String quote (groupmembership.Cluster state) in
  let group := String_String quote (groupmembership.Group state) in
  let user := String_String quote (groupmembership.ID state) in
  (diag.HasError diags = true →
   groupmembership.Delete quote g world req resp
   = ([], Done (groupmembership.mkResponse (groupmembership.resp_State resp) diags)))
  ∧ (diag.HasError diags = false →
     ∃ resp',
       groupmembership.Delete quote g world req resp
       = ([cmv1.UserDelete cluster group user], Done resp')
       ∧ match cmv1.delete_response world cluster group user with
         | Some e =>
             groupmembership.resp_State resp' = groupmembership.resp_State resp
             ∧ diag.HasError (groupmembership.resp_Diagnostics resp') = true
         | None =>
             groupmembership.resp_State resp' = None
             ∧ groupmembership.resp_Diagnostics resp' = diags
         end).
Proof.
  intros state diags cluster group user.
  unfold groupmembership.Delete. subst state diags cluster group user.
  destruct (groupmembership.req_Get req) as [state d]. simpl.
  split; intros Herr; rewrite Herr; [reflexivity|].
  unfold Delete_Send, mbind, usersRemote_bind.
  destruct (cmv1.delete_response world _ _ _) as [e|]; simpl; eexists;
    (split; [reflexivity|]); simpl; split; try reflexivity.
  apply AddError_spec.
Qed.

Lemma Delete_outcome_witness :
  ∃ resp',
    groupmembership.Delete (fun s => s) samples.sampleResource samples.sampleWorld
      samples.sampleRequest
      (groupmembership.mkResponse (Some (groupmembership.req_Get samples.sampleRequest).1) [])
    = ([cmv1.UserDelete "c1" "admins" "u1"], Done resp')
    ∧ groupmembership.resp_State resp' = None.
Proof.
  destruct (proj2 (Delete_outcome (fun s => s) samples.sampleResource samples.sampleWorld
                     samples.sampleRequest
                     (groupmembership.mkResponse
                        (Some (groupmembership.req_Get samples.sampleRequest).1) []))
              eq_refl)
    as (resp' & Hrun & Hstate & _).
  exists resp'. split; [exact Hrun | exact Hstate].
Defined.

Lemma ValidateDefaultIngress_errors_witness :
  defaultingress.ValidateDefaultIngress (Some samples.nullIngress) "latest"
  = Some "version 'latest' is not supported: Malformed version: latest".
Proof.
  apply (proj1 (ValidateDefaultIngress_errors samples.nullIngress "latest")).
  reflexivity.
Defined.


